(** * imageResizer.py: a shallow embedding and its properties

    The Python module has four functions: [clean_filename],
    [delete_thumb_files], [resize_gif] and [resize_images_in_folder].
    Strings are modelled as [string] (sequences of 8-bit characters, so
    [str.lower] only moves the letters A-Z); floats are binary64 values of
    [SpecFloat]; the operating system and the imaging libraries are an
    interface whose calls may fail and are recorded in a trace. *)

From Stdlib Require Import String Ascii List ZArith Bool Lia.
From Stdlib Require Import QArith Qround.
From Stdlib Require Import SpecFloat.
Import ListNotations.

Local Close Scope Q_scope.
Local Open Scope string_scope.
Local Open Scope list_scope.

(* ================================================================== *)
(** * Python string primitives *)
(* ================================================================== *)

Module PyStr.

(** [s.replace(old, new)] for a one-character [old]. *)
Fixpoint replace (old : ascii) (new : string) (s : string) : string :=
  match s with
  | EmptyString => EmptyString
  | String c rest =>
      if Ascii.eqb c old then new ++ replace old new rest
      else String c (replace old new rest)
  end.

(** [c.lower()] on one character: only A-Z move. *)
Definition lower_char (c : ascii) : ascii :=
  let n := N_of_ascii c in
  if ((65 <=? n) && (n <=? 90))%N then ascii_of_N (n + 32) else c.

(** [s.lower()]. *)
Fixpoint lower (s : string) : string :=
  match s with
  | EmptyString => EmptyString
  | String c rest => String (lower_char c) (lower rest)
  end.

(** [s.endswith(suffix)]. *)
Fixpoint endswith (s suffix : string) : bool :=
  String.eqb s suffix ||
  match s with
  | EmptyString => false
  | String _ rest => endswith rest suffix
  end.

(** [s.endswith((suf1, suf2, ...))]. *)
Definition endswith_any (s : string) (suffixes : list string) : bool :=
  existsb (endswith s) suffixes.

(** [pat in s]: substring test. *)
Fixpoint contains (pat s : string) : bool :=
  String.prefix pat s ||
  match s with
  | EmptyString => false
  | String _ rest => contains pat rest
  end.

(** [s.split(sep)] for a one-character [sep]. *)
Fixpoint split (sep : ascii) (s : string) : list string :=
  match s with
  | EmptyString => [EmptyString]
  | String c rest =>
      if Ascii.eqb c sep then EmptyString :: split sep rest
      else match split sep rest with
           | [] => [String c EmptyString]
           | piece :: pieces => String c piece :: pieces
           end
  end.

(** [s.rfind(c)]: index of the last occurrence, [None] for Python's -1. *)
Fixpoint rfind (c : ascii) (s : string) : option nat :=
  match s with
  | EmptyString => None
  | String a rest =>
      match rfind c rest with
      | Some i => Some (S i)
      | None => if Ascii.eqb a c then Some 0 else None
      end
  end.

(** Every character of [s] is [c]. *)
Fixpoint all_char (c : ascii) (s : string) : bool :=
  match s with
  | EmptyString => true
  | String a rest => Ascii.eqb a c && all_char c rest
  end.

(** [os.path.splitext(p)] on a directory entry (no path separator, so
    [sepIndex] is -1): the extension starts at the last dot, unless only
    dots precede it. *)
Definition splitext (p : string) : string * string :=
  match rfind "." p with
  | Some dotIndex =>
      if all_char "." (substring 0 dotIndex p) then (p, EmptyString)
      else (substring 0 dotIndex p,
            substring dotIndex (String.length p - dotIndex) p)
  | None => (p, EmptyString)
  end.

(** The characters of a string, for statements about its content. *)
Definition chars (s : string) : list ascii := list_ascii_of_string s.

End PyStr.

(* ================================================================== *)
(** * clean_filename *)
(* ================================================================== *)

(** Lines 6-13. *)
Definition clean_filename (filename : string) : string :=
  let filename := PyStr.replace " " EmptyString filename in
  let filename := PyStr.replace "(" EmptyString filename in
  let filename := PyStr.replace ")" EmptyString filename in
  filename.

(** The characters [clean_filename] is meant to let through. *)
Definition kept (c : ascii) : bool :=
  negb (Ascii.eqb c " ") && negb (Ascii.eqb c "(") && negb (Ascii.eqb c ")").

(* ================================================================== *)
(** * Exceptions and results *)
(* ================================================================== *)

(** The subclasses of [Exception] that the modelled calls raise; every
    handler of the module is [except Exception as e]. *)
Inductive exn : Type :=
| OSError (msg : string)
| ValueError (msg : string)
| OverflowError (msg : string)
| IndexError (msg : string)
| RuntimeError (msg : string).

(** [str(e)], as the f-strings of the handlers print it. *)
Definition exn_str (e : exn) : string :=
  match e with
  | OSError msg | ValueError msg | OverflowError msg
  | IndexError msg | RuntimeError msg => msg
  end.

Inductive result (A : Type) : Type :=
| Ok (a : A)
| Raise (e : exn).
Arguments Ok {A} a.
Arguments Raise {A} e.

Definition result_bind {A B} (r : result A) (k : A -> result B) : result B :=
  match r with
  | Ok a => k a
  | Raise e => Raise e
  end.

(** [l[-1]]. *)
Definition getitem_last {A} (l : list A) : result A :=
  match rev l with
  | x :: _ => Ok x
  | [] => Raise (IndexError "list index out of range")
  end.

(* ================================================================== *)
(** * Python floats: binary64 *)
(* ================================================================== *)

Module PyFloat.

Definition float : Type := spec_float.
Definition prec : Z := 53.
Definition emax : Z := 1024.

(** [x * y] on floats. *)
Definition mul (x y : float) : float := SFmul prec emax x y.

(** The conversion of an [int] operand of a mixed product. *)
Definition of_int (n : Z) : result float :=
  match binary_normalize prec emax n 0 false with
  | S754_infinity _ => Raise (OverflowError "int too large to convert to float")
  | x => Ok x
  end.

(** [int(x)]: truncation towards zero. *)
Definition to_int (x : float) : result Z :=
  match x with
  | S754_nan => Raise (ValueError "cannot convert float NaN to integer")
  | S754_infinity _ =>
      Raise (OverflowError "cannot convert float infinity to integer")
  | S754_zero _ => Ok 0%Z
  | S754_finite s m e => Ok (cond_Zopp s (Z.shiftl (Zpos m) e))
  end.

(** The rational a finite float stands for. *)
Definition value (x : float) : option Q :=
  match x with
  | S754_nan | S754_infinity _ => None
  | S754_zero _ => Some (inject_Z 0)
  | S754_finite s m e =>
      Some (if (0 <=? e)%Z then inject_Z (cond_Zopp s (Zpos m) * 2 ^ e)
            else Qmake (cond_Zopp s (Zpos m)) (Z.to_pos (2 ^ (- e))))
  end.

(** The sign bit; a NaN has none. *)
Definition is_neg (x : float) : bool :=
  match x with
  | S754_zero s | S754_infinity s | S754_finite s _ _ => s
  | S754_nan => false
  end.

(** [0.0 < x]. *)
Definition positive (x : float) : bool := SFltb (S754_zero false) x.

(** The literals of the module. *)
Definition f0_25 : float := S754_finite false 4503599627370496 (-54).
Definition f0_1 : float := S754_finite false 7205759403792794 (-56).
Definition f0_5 : float := S754_finite false 4503599627370496 (-53).
Definition f0_7 : float := S754_finite false 6305039478318694 (-53).

End PyFloat.

(** [int(n * scale_factor)] for an [int] dimension [n]. *)
Definition scaled (n : Z) (scale_factor : PyFloat.float) : result Z :=
  result_bind (PyFloat.of_int n) (fun x =>
  PyFloat.to_int (PyFloat.mul x scale_factor)).

(** [(int(img.width * scale_factor), int(img.height * scale_factor))],
    lines 52 and 132. *)
Definition new_dimensions (width height : Z) (scale_factor : PyFloat.float)
  : result (Z * Z) :=
  result_bind (scaled width scale_factor) (fun w =>
  result_bind (scaled height scale_factor) (fun h =>
  Ok (w, h))).

(* ================================================================== *)
(** * Paths and the format table *)
(* ================================================================== *)

(** A path inside a folder.  A directory entry holds no path separator, so
    [os.path.join(folder, entry)] determines the entry: it is a pair. *)
Record path : Type := mkPath { path_folder : string; path_name : string }.

Definition os_path_join (folder_path filename : string) : path :=
  mkPath folder_path filename.

Definition path_eqb (p q : path) : bool :=
  String.eqb (path_folder p) (path_folder q)
  && String.eqb (path_name p) (path_name q).

(** The path as printed. *)
Definition path_str (p : path) : string :=
  if String.eqb (path_folder p) EmptyString then path_name p
  else if PyStr.endswith (path_folder p) "/" then path_folder p ++ path_name p
  else path_folder p ++ "/" ++ path_name p.

(** A [dict] from format to file names, in insertion order. *)
Definition catalog : Type := list (string * list string).

(** [key in d]. *)
Definition dict_mem (key : string) (d : catalog) : bool :=
  existsb (fun kv => String.eqb (fst kv) key) d.

(** [d[key].append(v)], for a key of [d]. *)
Fixpoint dict_append (key v : string) (d : catalog) : catalog :=
  match d with
  | [] => []
  | (k, vs) :: rest =>
      if String.eqb k key then (k, vs ++ [v]) :: rest
      else (k, vs) :: dict_append key v rest
  end.

(** [d[key]], empty for a missing key. *)
Fixpoint dict_get (key : string) (d : catalog) : list string :=
  match d with
  | [] => []
  | (k, vs) :: rest => if String.eqb k key then vs else dict_get key rest
  end.

(** Lines 75-80. *)
Definition image_formats0 : catalog :=
  [("png", []); ("jpg", []); ("jpeg", []); ("gif", [])].

Definition nl : string := String (ascii_of_nat 10) EmptyString.

(** The tuple of line 115. *)
Definition image_suffixes : list string := [".png"; ".jpg"; ".jpeg"; ".gif"].

(* ================================================================== *)
(** * The environment: imaging library and operating system *)
(* ================================================================== *)

(** What the module imports.  [PIL.Image] values are abstract: only their
    size is observed, and [resize] and [convert] are assumed to keep their
    documented size contract.  The calls that touch the file system act on an
    abstract state and may raise. *)
Record env : Type := {
  ndarray : Type;
  image : Type;
  width : image -> Z;
  height : image -> Z;
  Image_fromarray : ndarray -> result image;
  Image_convert : image -> string -> result image;
  Image_resize : image -> Z * Z -> option string -> result image;
  resize_size : forall img size resample img',
      Image_resize img size resample = Ok img' ->
      (width img', height img') = size;
  convert_size : forall img mode img',
      Image_convert img mode = Ok img' ->
      width img' = width img /\ height img' = height img;
  sys : Type;
  sys_listdir : string -> sys -> result (list string) * sys;
  sys_remove : path -> sys -> result unit * sys;
  sys_rename : path -> path -> sys -> result unit * sys;
  sys_open_w : path -> sys -> result unit * sys;
  sys_write : path -> string -> sys -> result unit * sys;
  sys_close : path -> sys -> result unit * sys;
  sys_Image_open : path -> sys -> result image * sys;
  sys_Image_save : image -> path -> sys -> result unit * sys;
  (** [imageio.get_reader]: the frames the reader will yield; an item that
      is [Raise] is an error of the iteration itself. *)
  sys_get_reader : path -> sys -> result (list (result ndarray)) * sys;
  sys_mimsave : path -> list image -> PyFloat.float -> sys -> result unit * sys
}.

(** [None]: the call returned; [Some e]: it raised [e]. *)
Definition outcome {A} (r : result A) : option exn :=
  match r with
  | Ok _ => None
  | Raise e => Some e
  end.

Section Program.

Variable E : env.

(** The calls a run makes, in order, with how each ended. *)
Inductive event : Type :=
| EvListdir (folder_path : string) (r : result (list string))
| EvRemove (p : path) (r : option exn)
| EvRename (src dst : path) (r : option exn)
| EvOpenW (p : path) (r : option exn)
| EvWrite (p : path) (text : string) (r : option exn)
| EvClose (p : path) (r : option exn)
| EvImageOpen (p : path) (r : option exn)
| EvImageSave (img : image E) (p : path) (r : option exn)
| EvGetReader (p : path) (r : option exn)
| EvMimsave (p : path) (frames : list (image E)) (duration : PyFloat.float)
            (r : option exn)
| EvPrint (line : string).

Record world : Type := mkWorld { st : sys E; trace : list event }.

(** ** The monad of the module: state and exceptions *)

Definition M (A : Type) : Type := world -> result A * world.

Definition ret {A} (a : A) : M A := fun w => (Ok a, w).

Definition bind {A B} (m : M A) (k : A -> M B) : M B :=
  fun w => match m w with
           | (Ok a, w') => k a w'
           | (Raise e, w') => (Raise e, w')
           end.

(** [try: m / except Exception as e: h e]. *)
Definition try_except {A} (m : M A) (h : exn -> M A) : M A :=
  fun w => match m w with
           | (Ok a, w') => (Ok a, w')
           | (Raise e, w') => h e w'
           end.

(** A pure computation that may raise. *)
Definition lift {A} (r : result A) : M A := fun w => (r, w).

(** One call of the environment, logged. *)
Definition call {A} (f : sys E -> result A * sys E)
           (ev : result A -> event) : M A :=
  fun w => let (r, s') := f (st w) in
           (r, mkWorld s' (trace w ++ [ev r])).

(** The same, for a call whose value the trace does not keep. *)
Definition call_ {A} (f : sys E -> result A * sys E)
           (ev : option exn -> event) : M A :=
  call f (fun r => ev (outcome r)).

Definition print (line : string) : M unit :=
  fun w => (Ok tt, mkWorld (st w) (trace w ++ [EvPrint line])).

Definition os_listdir (folder_path : string) : M (list string) :=
  call (sys_listdir E folder_path) (EvListdir folder_path).
Definition os_remove (p : path) : M unit :=
  call_ (sys_remove E p) (EvRemove p).
Definition os_rename (src dst : path) : M unit :=
  call_ (sys_rename E src dst) (EvRename src dst).
Definition open_w (p : path) : M unit :=
  call_ (sys_open_w E p) (EvOpenW p).
Definition f_write (p : path) (text : string) : M unit :=
  call_ (sys_write E p text) (EvWrite p text).
Definition f_close (p : path) : M unit :=
  call_ (sys_close E p) (EvClose p).
Definition Image_open (p : path) : M (image E) :=
  call_ (sys_Image_open E p) (EvImageOpen p).
Definition Image_save (img : image E) (p : path) : M unit :=
  call_ (sys_Image_save E img p) (EvImageSave img p).
Definition imageio_get_reader (p : path) : M (list (result (ndarray E))) :=
  call_ (sys_get_reader E p) (EvGetReader p).
Definition imageio_mimsave (p : path) (frames : list (image E))
           (duration : PyFloat.float) : M unit :=
  call_ (sys_mimsave E p frames duration) (EvMimsave p frames duration).

Notation "x <- m ;; k" := (bind m (fun x => k))
  (at level 61, m at next level, right associativity).
Notation "m ;; k" := (bind m (fun _ => k))
  (at level 61, right associativity).

(** [for x in xs: body x]. *)
Fixpoint for_ {A} (xs : list A) (body : A -> M unit) : M unit :=
  match xs with
  | [] => ret tt
  | x :: rest => body x ;; for_ rest body
  end.

(** A [for] loop whose body updates a local variable. *)
Fixpoint for_fold {A V} (xs : list A) (v : V) (body : V -> A -> M V) : M V :=
  match xs with
  | [] => ret v
  | x :: rest => v' <- body v x ;; for_fold rest v' body
  end.

(** [with open(p, 'w') as f: body]: the file is closed on both exits, and
    an error of the closing is the one that propagates. *)
Definition with_open_w {A} (p : path) (body : M A) : M A :=
  open_w p ;;
  (fun w => match body w with
            | (Ok a, w') => (f_close p ;; ret a) w'
            | (Raise e, w') => (f_close p ;; lift (Raise e)) w'
            end).

(** ** delete_thumb_files, lines 16-29 *)

Definition delete_thumb_files (folder_path : string) : M unit :=
  try_except
    (names <- os_listdir folder_path ;;
     for_ names (fun filename =>
       if PyStr.contains "_thumb" filename then
         let file_path := os_path_join folder_path filename in
         os_remove file_path ;;
         print ("Deleted: " ++ path_str file_path)
       else ret tt))
    (fun e => print ("Error deleting files: " ++ exn_str e)).

(** ** resize_gif, lines 32-64 *)

(** The body of the inner [try], lines 48-54. *)
Definition process_frame (frame : ndarray E) (scale_factor : PyFloat.float)
  : result (image E) :=
  result_bind (Image_fromarray E frame) (fun img =>
  result_bind (Image_convert E img "RGB") (fun img =>
  result_bind (new_dimensions (width E img) (height E img) scale_factor)
    (fun new_dimensions =>
  Image_resize E img new_dimensions (Some "LANCZOS")))).

(** The loop of lines 46-57 over the items of the reader. *)
Fixpoint frames_loop (reader : list (result (ndarray E)))
         (scale_factor : PyFloat.float) (resized_frames : list (image E))
  : M (list (image E)) :=
  match reader with
  | [] => ret resized_frames
  | item :: rest =>
      frame <- lift item ;;
      resized_frames <-
        try_except
          (resized_frame <- lift (process_frame frame scale_factor) ;;
           ret (resized_frames ++ [resized_frame]))
          (fun e => print ("Error processing frame: " ++ exn_str e) ;;
                    ret resized_frames) ;;
      frames_loop rest scale_factor resized_frames
  end.

Definition resize_gif (img_path new_file_path : path)
           (scale_factor : PyFloat.float) : M unit :=
  try_except
    (reader <- imageio_get_reader img_path ;;
     resized_frames <- frames_loop reader scale_factor [] ;;
     imageio_mimsave new_file_path resized_frames PyFloat.f0_1 ;;
     print ("Resized and saved GIF: " ++ path_str new_file_path))
    (fun e => print ("Error resizing GIF " ++ path_str img_path ++ ": "
                     ++ exn_str e)).

(** ** resize_images_in_folder, lines 67-142 *)

(** The body of the loop of lines 86-100. *)
Definition catalog_entry (folder_path : string) (image_formats : catalog)
           (filename : string) : M catalog :=
  try_except
    (let cleaned_filename := clean_filename filename in
     let old_file_path := os_path_join folder_path filename in
     let new_file_path := os_path_join folder_path cleaned_filename in
     (if negb (path_eqb old_file_path new_file_path)
      then os_rename old_file_path new_file_path
      else ret tt) ;;
     last_piece <- lift (getitem_last (PyStr.split "." cleaned_filename)) ;;
     let file_extension := PyStr.lower last_piece in
     if dict_mem file_extension image_formats
     then ret (dict_append file_extension cleaned_filename image_formats)
     else ret image_formats)
    (fun e => print ("Error processing file " ++ filename ++ ": "
                     ++ exn_str e) ;;
              ret image_formats).

(** Lines 103-111. *)
Definition write_image_list (folder_path : string) (image_formats : catalog)
  : M unit :=
  let f := os_path_join folder_path "image_list.txt" in
  try_except
    (with_open_w f
       (for_ image_formats (fun kv =>
          let (format, files) := kv in
          f_write f ("Format: " ++ format ++ nl) ;;
          for_ files (fun file => f_write f ("- " ++ file ++ nl)) ;;
          f_write f nl)))
    (fun e => print ("Error writing image list: " ++ exn_str e)).

(** Lines 130-139: the branch of the still images. *)
Definition resize_still (img_path new_file_path : path)
           (scale_factor : PyFloat.float) : M unit :=
  img <- Image_open img_path ;;
  new_dimensions <-
    lift (new_dimensions (width E img) (height E img) scale_factor) ;;
  img <- lift (Image_resize E img new_dimensions None) ;;
  Image_save img new_file_path ;;
  print ("Resized and saved: " ++ path_str new_file_path).

(** The body of the loop of lines 114-142. *)
Definition thumbnail_entry (folder_path : string)
           (scale_factor : PyFloat.float) (filename : string) : M unit :=
  if PyStr.endswith_any (PyStr.lower filename) image_suffixes then
    let img_path := os_path_join folder_path filename in
    let (name, ext) := PyStr.splitext filename in
    let new_filename := (name ++ "_thumb" ++ ext)%string in
    let new_file_path := os_path_join folder_path new_filename in
    try_except
      (if PyStr.endswith (PyStr.lower filename) ".gif"
       then resize_gif img_path new_file_path scale_factor
       else resize_still img_path new_file_path scale_factor)
      (fun e => print ("Error resizing image " ++ filename ++ ": "
                       ++ exn_str e))
  else ret tt.

Definition resize_images_in_folder (folder_path : string)
           (scale_factor : PyFloat.float) : M unit :=
  let image_formats := image_formats0 in
  delete_thumb_files folder_path ;;
  names <- os_listdir folder_path ;;
  image_formats <-
    for_fold names image_formats (catalog_entry folder_path) ;;
  write_image_list folder_path image_formats ;;
  names <- os_listdir folder_path ;;
  for_ names (thumbnail_entry folder_path scale_factor).

(** The call with the default [scale_factor=0.25]. *)
Definition resize_images_in_folder_default (folder_path : string) : M unit :=
  resize_images_in_folder folder_path PyFloat.f0_25.

End Program.

Arguments EvListdir {E}.
Arguments EvRemove {E}.
Arguments EvRename {E}.
Arguments EvOpenW {E}.
Arguments EvWrite {E}.
Arguments EvClose {E}.
Arguments EvImageOpen {E}.
Arguments EvImageSave {E}.
Arguments EvGetReader {E}.
Arguments EvMimsave {E}.
Arguments EvPrint {E}.
Arguments mkWorld {E}.
Arguments st {E}.
Arguments trace {E}.
Arguments ret {E A}.
Arguments bind {E A B}.
Arguments try_except {E A}.
Arguments lift {E A}.
Arguments for_ {E A}.
Arguments for_fold {E A V}.

(* ================================================================== *)
(** * A concrete environment: one folder in memory *)
(* ================================================================== *)

Module Sim.

Record img : Type := mkImg { img_w : Z; img_h : Z; img_mode : string }.

(** A frame as the reader yields it: pixels of a picture, or an array that
    [Image.fromarray] cannot handle. *)
Inductive arr : Type :=
| GoodArr (i : img)
| BadArr.

Definition fromarray (a : arr) : result img :=
  match a with
  | GoodArr i => Ok i
  | BadArr => Raise (ValueError "Cannot handle this data type")
  end.

Definition convert (i : img) (mode : string) : result img :=
  Ok (mkImg (img_w i) (img_h i) mode).

Definition resize (i : img) (size : Z * Z) (resample : option string)
  : result img :=
  if ((1 <=? fst size) && (1 <=? snd size))%Z
  then Ok (mkImg (fst size) (snd size) (img_mode i))
  else Raise (ValueError "height and width must be > 0").

Inductive file : Type :=
| Text (s : string)
| Still (i : img)
| Anim (frames : list (result arr))
| Junk.

(** The folder: whether it can be listed, its entries in listing order, and
    the entries that may not be removed, renamed or overwritten. *)
Record fs : Type := mkFs {
  present : bool;
  entries : list (string * file);
  locked : list string
}.

Definition is_locked (n : string) (s : fs) : bool :=
  existsb (String.eqb n) (locked s).

Fixpoint lookup (n : string) (l : list (string * file)) : option file :=
  match l with
  | [] => None
  | (k, f) :: rest => if String.eqb k n then Some f else lookup n rest
  end.

Definition erase (n : string) (l : list (string * file))
  : list (string * file) :=
  filter (fun kf => negb (String.eqb (fst kf) n)) l.

(** Overwrite in place, or add at the end of the listing. *)
Fixpoint store (n : string) (f : file) (l : list (string * file))
  : list (string * file) :=
  match l with
  | [] => [(n, f)]
  | (k, g) :: rest =>
      if String.eqb k n then (k, f) :: rest else (k, g) :: store n f rest
  end.

Definition with_entries (s : fs) (l : list (string * file)) : fs :=
  mkFs (present s) l (locked s).

Definition denied {A} : result A := Raise (OSError "Permission denied").
Definition missing {A} : result A :=
  Raise (OSError "No such file or directory").

Definition listdir (folder_path : string) (s : fs)
  : result (list string) * fs :=
  if present s then (Ok (map fst (entries s)), s) else (missing, s).

Definition remove (p : path) (s : fs) : result unit * fs :=
  let n := path_name p in
  if is_locked n s then (denied, s)
  else match lookup n (entries s) with
       | Some _ => (Ok tt, with_entries s (erase n (entries s)))
       | None => (missing, s)
       end.

Definition rename (src dst : path) (s : fs) : result unit * fs :=
  let n := path_name src in
  if is_locked n s then (denied, s)
  else match lookup n (entries s) with
       | Some f =>
           (Ok tt,
            with_entries s (store (path_name dst) f (erase n (entries s))))
       | None => (missing, s)
       end.

Definition put (p : path) (f : file) (s : fs) : result unit * fs :=
  if negb (present s) then (missing, s)
  else if is_locked (path_name p) s then (denied, s)
  else (Ok tt, with_entries s (store (path_name p) f (entries s))).

Definition open_w (p : path) (s : fs) : result unit * fs :=
  put p (Text EmptyString) s.

Definition write (p : path) (text : string) (s : fs) : result unit * fs :=
  match lookup (path_name p) (entries s) with
  | Some (Text old) => put p (Text (old ++ text)) s
  | _ => (Raise (ValueError "I/O operation on closed file"), s)
  end.

Definition close (p : path) (s : fs) : result unit * fs := (Ok tt, s).

Definition image_open (p : path) (s : fs) : result img * fs :=
  match lookup (path_name p) (entries s) with
  | Some (Still i) => (Ok i, s)
  | Some _ => (Raise (OSError "cannot identify image file"), s)
  | None => (missing, s)
  end.

Definition image_save (i : img) (p : path) (s : fs) : result unit * fs :=
  put p (Still i) s.

Definition get_reader (p : path) (s : fs)
  : result (list (result arr)) * fs :=
  match lookup (path_name p) (entries s) with
  | Some (Anim frames) => (Ok frames, s)
  | Some _ => (Raise (ValueError "Could not find a backend to open it"), s)
  | None => (missing, s)
  end.

Definition mimsave (p : path) (frames : list img) (duration : PyFloat.float)
           (s : fs) : result unit * fs :=
  match frames with
  | [] => (Raise (RuntimeError "Zero images were written."), s)
  | _ => put p (Anim (map (fun i => Ok (GoodArr i)) frames)) s
  end.

Definition E : env.
Proof.
  refine {|
    ndarray := arr; image := img; width := img_w; height := img_h;
    Image_fromarray := fromarray; Image_convert := convert;
    Image_resize := resize;
    sys := fs; sys_listdir := listdir; sys_remove := remove;
    sys_rename := rename; sys_open_w := open_w; sys_write := write;
    sys_close := close; sys_Image_open := image_open;
    sys_Image_save := image_save; sys_get_reader := get_reader;
    sys_mimsave := mimsave |}.
  - intros i [w h] r i'. unfold resize. simpl.
    destruct ((1 <=? w) && (1 <=? h))%Z; intros H; inversion H. reflexivity.
  - intros i m i' H. inversion H. split; reflexivity.
Defined.

(** A run starts with an empty trace. *)
Definition start (s : fs) : world E := mkWorld (s : sys E) [].

Definition folder : string := "/srv/background/".

(** Two stale thumbnails, the first of which cannot be removed. *)
Definition fs_locked_thumb : fs :=
  mkFs true
       [("a_thumb.png", Still (mkImg 4 4 "RGB"));
        ("b_thumb.png", Still (mkImg 4 4 "RGB"))]
       ["a_thumb.png"].

(** A folder that cannot be listed. *)
Definition fs_absent : fs := mkFs false [] [].

(** The folder of the example of the specification, with one more entry
    that has no dot. *)
Definition fs_photos : fs :=
  mkFs true
       [("photo.png", Still (mkImg 640 480 "RGBA"));
        ("photo (1).JPG", Still (mkImg 1920 1080 "RGB"));
        ("clip.gif", Anim [Ok (GoodArr (mkImg 100 60 "P"));
                           Ok BadArr;
                           Ok (GoodArr (mkImg 100 60 "P"))]);
        ("notes.txt", Text "hello");
        ("png", Junk)]
       [].

Definition clip : path := os_path_join folder "clip.gif".
Definition clip_thumb : path := os_path_join folder "clip_thumb.gif".
Definition frame100 : arr := GoodArr (mkImg 100 60 "P").
Definition thumb50 : img := mkImg 50 30 "RGB".

(** A folder whose [clip.gif] cannot be decoded. *)
Definition fs_corrupt_gif : fs := mkFs true [("clip.gif", Junk)] [].

(** A folder whose [clip.gif] has three frames, the second of which the
    reader cannot decode: iterating the reader raises there. *)
Definition fs_truncated_gif : fs :=
  mkFs true
       [("clip.gif",
         Anim [Ok frame100; Raise (ValueError "image file is truncated");
               Ok frame100])]
       [].

End Sim.

(* ================================================================== *)
(** * Reference definitions, in the words of the specification *)
(* ================================================================== *)

(** [floor(original * scale_factor)]: the integer part, rounded down, of the
    product of the dimension with the factor, when that product is a finite
    float. *)
Definition floor_scaled (n : Z) (scale_factor : PyFloat.float) : option Z :=
  match PyFloat.of_int n with
  | Ok x => option_map Qfloor (PyFloat.value (PyFloat.mul x scale_factor))
  | Raise _ => None
  end.

(** Whether a frame comes through the body of the inner [try]. *)
Definition frame_ok (E : env) (scale_factor : PyFloat.float)
           (frame : ndarray E) : bool :=
  match process_frame E frame scale_factor with
  | Ok _ => true
  | Raise _ => false
  end.

(** The resized frames that survive, in the order of the source. *)
Fixpoint surviving_frames (E : env) (scale_factor : PyFloat.float)
         (frames : list (ndarray E)) : list (image E) :=
  match frames with
  | [] => []
  | frame :: rest =>
      match process_frame E frame scale_factor with
      | Ok resized => resized :: surviving_frames E scale_factor rest
      | Raise _ => surviving_frames E scale_factor rest
      end
  end.

(** The lines logged for the frames that are dropped. *)
Fixpoint dropped_frames_log (E : env) (scale_factor : PyFloat.float)
         (frames : list (ndarray E)) : list (event E) :=
  match frames with
  | [] => []
  | frame :: rest =>
      match process_frame E frame scale_factor with
      | Ok _ => dropped_frames_log E scale_factor rest
      | Raise e =>
          EvPrint ("Error processing frame: " ++ exn_str e)
          :: dropped_frames_log E scale_factor rest
      end
  end.

(** Whether the call that an event records returned. *)
Definition ev_ok {E : env} (ev : event E) : bool :=
  match ev with
  | EvListdir _ (Ok _) => true
  | EvListdir _ (Raise _) => false
  | EvRemove _ r | EvRename _ _ r | EvOpenW _ r | EvWrite _ _ r
  | EvClose _ r | EvImageOpen _ r | EvImageSave _ _ r | EvGetReader _ r
  | EvMimsave _ _ _ r =>
      match r with
      | None => true
      | Some _ => false
      end
  | EvPrint _ => true
  end.

(** The text that the events of a run leave in the file [p], which they
    open for writing: an opening truncates, a write that returns appends. *)
Definition file_text {E : env} (p : path) (t : list (event E)) : string :=
  fold_left
    (fun text ev =>
       match ev with
       | EvOpenW q None => if path_eqb q p then EmptyString else text
       | EvWrite q more None =>
           if path_eqb q p then (text ++ more)%string else text
       | _ => text
       end)
    t EmptyString.

(** The lines of the manifest for one format: the header, one dashed line
    per file, one blank line. *)
Definition manifest_section (format : string) (files : list string)
  : list string :=
  ("Format: " ++ format ++ nl)%string
  :: map (fun file => ("- " ++ file ++ nl)%string) files ++ [nl].

(** The manifest: the four formats in the order png, jpg, jpeg, gif. *)
Definition manifest_lines (image_formats : catalog) : list string :=
  manifest_section "png" (dict_get "png" image_formats)
  ++ manifest_section "jpg" (dict_get "jpg" image_formats)
  ++ manifest_section "jpeg" (dict_get "jpeg" image_formats)
  ++ manifest_section "gif" (dict_get "gif" image_formats).

Definition manifest_text (image_formats : catalog) : string :=
  fold_right String.append EmptyString (manifest_lines image_formats).

Definition manifest_path (folder_path : string) : path :=
  os_path_join folder_path "image_list.txt".

(** The recognized formats. *)
Definition formats : list string := ["png"; "jpg"; "jpeg"; "gif"].

(** [c] occurs in [s]. *)
Fixpoint has_char (c : ascii) (s : string) : bool :=
  match s with
  | EmptyString => false
  | String a rest => Ascii.eqb a c || has_char c rest
  end.

(** The text after the last [sep] of [s]; the whole of [s] when it has
    none. *)
Fixpoint after_last (sep : ascii) (s : string) : string :=
  match s with
  | EmptyString => EmptyString
  | String c rest =>
      if has_char sep rest then after_last sep rest
      else if Ascii.eqb c sep then rest
      else String c rest
  end.

(** The extension of a cleaned name: what follows its last dot,
    lower-cased. *)
Definition extension (cleaned_filename : string) : string :=
  PyStr.lower (after_last "." cleaned_filename).

(** Cataloguing one cleaned name: appended to the list of its format when
    the extension is a key, left out otherwise. *)
Definition catalog_add (image_formats : catalog) (cleaned_filename : string)
  : catalog :=
  if dict_mem (extension cleaned_filename) image_formats
  then dict_append (extension cleaned_filename) cleaned_filename image_formats
  else image_formats.

(** The renamings of a pass over [names] in which every renaming returns:
    one for each name that its cleaning changes. *)
Definition rename_events {E : env} (folder_path : string)
           (names : list string) : list (event E) :=
  flat_map
    (fun filename =>
       if String.eqb filename (clean_filename filename) then []
       else [EvRename (os_path_join folder_path filename)
                      (os_path_join folder_path (clean_filename filename))
                      None])
    names.

(** ** The stages of a run, as seen in its trace *)

(** A computation whose calls all satisfy [P]. *)
Definition emits {E : env} {A : Type} (P : event E -> bool) (m : M E A)
  : Prop :=
  forall w, exists r w' t,
    m w = (r, w') /\ trace w' = trace w ++ t /\ forallb P t = true.

(** Cleanup lists the folder, removes files and prints. *)
Definition cleanup_ev {E : env} (ev : event E) : bool :=
  match ev with
  | EvListdir _ _ | EvRemove _ _ | EvPrint _ => true
  | _ => false
  end.

(** Cataloguing renames files and prints. *)
Definition catalog_ev {E : env} (ev : event E) : bool :=
  match ev with
  | EvRename _ _ _ | EvPrint _ => true
  | _ => false
  end.

(** The manifest stage opens, writes and closes [image_list.txt], and
    prints. *)
Definition manifest_ev {E : env} (folder_path : string) (ev : event E)
  : bool :=
  match ev with
  | EvOpenW p _ | EvWrite p _ _ | EvClose p _ =>
      path_eqb p (manifest_path folder_path)
  | EvPrint _ => true
  | _ => false
  end.

Definition is_print {E : env} (ev : event E) : bool :=
  match ev with
  | EvPrint _ => true
  | _ => false
  end.

(** The test of line 115 and the test of line 125. *)
Definition is_image_name (filename : string) : bool :=
  PyStr.endswith_any (PyStr.lower filename) image_suffixes.
Definition is_gif_name (filename : string) : bool :=
  PyStr.endswith (PyStr.lower filename) ".gif".

(** [<name-without-ext>_thumb<ext>]. *)
Definition thumb_name (filename : string) : string :=
  (fst (PyStr.splitext filename) ++ "_thumb"
   ++ snd (PyStr.splitext filename))%string.

(** After the opening of its source, thumbnailing an entry only prints and
    writes its own thumbnail, with the writer of its kind. *)
Definition thumb_tail_ev {E : env} (folder_path filename : string)
           (ev : event E) : bool :=
  match ev with
  | EvMimsave p _ _ _ =>
      is_gif_name filename
      && path_eqb p (os_path_join folder_path (thumb_name filename))
  | EvImageSave _ p _ =>
      negb (is_gif_name filename)
      && path_eqb p (os_path_join folder_path (thumb_name filename))
  | EvPrint _ => true
  | _ => false
  end.

(** The events of the thumbnail pass for one entry: none for a name that is
    not an image name; otherwise the opening of the entry, by
    [imageio.get_reader] for a gif name and by [Image.open] for the others,
    followed by events of [thumb_tail_ev]. *)
Definition thumb_segment {E : env} (folder_path filename : string)
           (seg : list (event E)) : bool :=
  if is_image_name filename then
    match seg with
    | EvGetReader p _ :: rest =>
        is_gif_name filename
        && path_eqb p (os_path_join folder_path filename)
        && forallb (thumb_tail_ev folder_path filename) rest
    | EvImageOpen p _ :: rest =>
        negb (is_gif_name filename)
        && path_eqb p (os_path_join folder_path filename)
        && forallb (thumb_tail_ev folder_path filename) rest
    | _ => false
    end
  else
    match seg with
    | [] => true
    | _ => false
    end.

(** A computation that returns, and whose calls all satisfy [P]. *)
Definition returns {E : env} {A : Type} (P : event E -> bool) (m : M E A)
  : Prop :=
  forall w, exists a w' t,
    m w = (Ok a, w') /\ trace w' = trace w ++ t /\ forallb P t = true.

(** ** The script, lines 145-148 *)

Definition backslash : string := String (ascii_of_nat 92) EmptyString.

(** The literal of line 146. *)
Definition script_folder_path : string :=
  ("D:" ++ backslash ++ "MD" ++ backslash ++ "Project" ++ backslash
   ++ "Z-Assistant" ++ backslash ++ "static" ++ backslash ++ "background"
   ++ backslash)%string.

(** Lines 146-148: the call with the default scale factor, then the final
    line. *)
Definition script (E : env) : M E unit :=
  bind (resize_images_in_folder_default E script_folder_path)
       (fun _ => print E ("Done! Check the folder: " ++ script_folder_path)).

(** ** Further reference definitions *)

(** A name that [clean_filename] changes: it holds a space or a
    parenthesis. *)
Definition needs_cleaning (filename : string) : bool :=
  has_char " " filename || has_char "(" filename || has_char ")" filename.

(** The events of a cleanup of [folder_path] that only lists this folder,
    removes entries of it whose name holds [_thumb], and prints. *)
Definition thumb_removal_ev {E : env} (folder_path : string) (ev : event E)
  : bool :=
  match ev with
  | EvListdir f _ => String.eqb f folder_path
  | EvRemove p _ =>
      String.eqb (path_folder p) folder_path
      && PyStr.contains "_thumb" (path_name p)
  | EvPrint _ => true
  | _ => false
  end.

(** The events of a cleanup in which every removal returns: for each listed
    name that holds [_thumb], in order, its removal and the line that
    reports it. *)
Definition removal_events {E : env} (folder_path : string)
           (names : list string) : list (event E) :=
  flat_map
    (fun filename =>
       if PyStr.contains "_thumb" filename then
         [EvRemove (os_path_join folder_path filename) None;
          EvPrint ("Deleted: "
                   ++ path_str (os_path_join folder_path filename))]
       else [])
    names.

(** [xs] is [ys] with some elements left out, the order kept. *)
Fixpoint subsequence {A : Type} (xs ys : list A) : Prop :=
  match ys with
  | [] => xs = []
  | y :: ys' =>
      subsequence xs ys'
      \/ match xs with
         | [] => False
         | x :: xs' => x = y /\ subsequence xs' ys'
         end
  end.

(** A write into the file [p]. *)
Definition is_write_to {E : env} (p : path) (ev : event E) : bool :=
  match ev with
  | EvWrite q _ _ => path_eqb q p
  | _ => false
  end.


(** The float that is not a number. *)
Definition nan : PyFloat.float := S754_nan.

(* ================================================================== *)
(** * Properties *)
(* ================================================================== *)

Section CleanFilename.

Lemma replace_empty_chars (old : ascii) (s : string) :
  PyStr.chars (PyStr.replace old EmptyString s)
  = filter (fun c => negb (Ascii.eqb c old)) (PyStr.chars s).
Proof.
  induction s as [|c rest IH]; simpl; [reflexivity|].
  destruct (Ascii.eqb c old); simpl; [exact IH | now rewrite <- IH].
Qed.

Lemma filter_filter {A} (p q : A -> bool) (l : list A) :
  filter p (filter q l) = filter (fun x => q x && p x) l.
Proof.
  induction l as [|x l IH]; simpl; [reflexivity|].
  destruct (q x); simpl; [destruct (p x); now rewrite IH | exact IH].
Qed.

Lemma chars_inj (s t : string) : PyStr.chars s = PyStr.chars t -> s = t.
Proof.
  intros H. rewrite <- (string_of_list_ascii_of_string s).
  rewrite <- (string_of_list_ascii_of_string t).
  unfold PyStr.chars in H. now rewrite H.
Qed.

Lemma clean_filename_chars (f : string) :
  PyStr.chars (clean_filename f) = filter kept (PyStr.chars f).
Proof.
  unfold clean_filename. rewrite !replace_empty_chars, !filter_filter.
  apply filter_ext. intros c. unfold kept. now rewrite andb_assoc.
Qed.

(** C3: [clean_filename] is idempotent, its result holds no space and no
    parenthesis, and the result is exactly the other characters of the
    input, unchanged and in their order. *)
Theorem clean_filename_normalizes (f : string) :
  clean_filename (clean_filename f) = clean_filename f
  /\ (forall c, In c (PyStr.chars (clean_filename f)) ->
        c <> " "%char /\ c <> "("%char /\ c <> ")"%char)
  /\ PyStr.chars (clean_filename f)
     = filter (fun c => negb (Ascii.eqb c " ") && negb (Ascii.eqb c "(")
                        && negb (Ascii.eqb c ")")) (PyStr.chars f).
Proof.
  split; [|split].
  - apply chars_inj. rewrite !clean_filename_chars, filter_filter.
    apply filter_ext. intros c. now destruct (kept c).
  - intros c Hc. rewrite clean_filename_chars in Hc.
    apply filter_In in Hc. destruct Hc as [_ Hk]. unfold kept in Hk.
    apply andb_prop in Hk. destruct Hk as [Hk H3].
    apply andb_prop in Hk. destruct Hk as [H1 H2].
    repeat split; intros ->; discriminate.
  - apply clean_filename_chars.
Qed.

End CleanFilename.

(* ------------------------------------------------------------------ *)
(** ** Floats: truncation and floor *)
(* ------------------------------------------------------------------ *)

Section Floats.

Local Open Scope Z_scope.

Lemma round_aux_sign (sx : bool) (mx ex : Z) (lx : location) :
  PyFloat.is_neg (binary_round_aux PyFloat.prec PyFloat.emax sx mx ex lx)
  = true -> sx = true.
Proof.
  unfold binary_round_aux.
  destruct (shr_fexp _ _ mx ex lx) as [mrs' e'].
  destruct (shr_fexp _ _ _ e' loc_Exact) as [mrs'' e''].
  destruct (shr_m mrs''); simpl; try discriminate; auto.
  destruct (e'' <=? _); simpl; auto.
Qed.

Lemma of_int_sign (n : Z) (x : PyFloat.float) :
  0 <= n -> PyFloat.of_int n = Ok x -> PyFloat.is_neg x = false.
Proof.
  intros Hn. unfold PyFloat.of_int, binary_normalize.
  destruct n as [|m|m]; [| |lia].
  - intros H. inversion H. reflexivity.
  - unfold binary_round.
    destruct (shl_align m 0 _) as [mz ez].
    intros H. destruct (PyFloat.is_neg x) eqn:Hx; [|reflexivity].
    destruct (binary_round_aux _ _ false (Z.pos mz) ez loc_Exact) eqn:Hr;
      inversion H; subst x;
      rewrite <- Hr in Hx; apply round_aux_sign in Hx; discriminate.
Qed.

Lemma mul_sign (x y : PyFloat.float) :
  PyFloat.is_neg x = false -> PyFloat.is_neg y = false ->
  PyFloat.is_neg (PyFloat.mul x y) = false.
Proof.
  intros Hx Hy.
  destruct x as [sx|sx| |sx mx ex], y as [sy|sy| |sy my ey];
    simpl in *; subst; try reflexivity.
  destruct (PyFloat.is_neg _) eqn:H; [|reflexivity].
  apply round_aux_sign in H. discriminate.
Qed.

Lemma positive_sign (x : PyFloat.float) :
  PyFloat.positive x = true -> PyFloat.is_neg x = false.
Proof.
  destruct x as [s|s| |s m e]; simpl; try discriminate;
    destruct s; simpl; try discriminate; reflexivity.
Qed.

(** On a float that is not negative, [int] is the floor of its value. *)
Lemma to_int_floor (x : PyFloat.float) (v : Q) :
  PyFloat.is_neg x = false -> PyFloat.value x = Some v ->
  PyFloat.to_int x = Ok (Qfloor v).
Proof.
  destruct x as [s|s| |s m e]; simpl; try discriminate.
  - intros _ H. inversion H. reflexivity.
  - intros -> H. inversion H as [Hv]. clear H Hv. simpl.
    destruct (0 <=? e) eqn:He.
    + apply Z.leb_le in He. rewrite Qfloor_Z, Z.shiftl_mul_pow2 by assumption.
      reflexivity.
    + apply Z.leb_gt in He. simpl.
      rewrite Z.shiftl_div_pow2 by lia.
      rewrite Z2Pos.id by (apply Z.pow_pos_nonneg; lia). reflexivity.
Qed.

Lemma scaled_floor (n k : Z) (scale_factor : PyFloat.float) :
  0 <= n -> PyFloat.positive scale_factor = true ->
  floor_scaled n scale_factor = Some k ->
  scaled n scale_factor = Ok k.
Proof.
  intros Hn Hs. unfold floor_scaled, scaled.
  destruct (PyFloat.of_int n) as [x|e] eqn:Hx; [|discriminate].
  simpl. destruct (PyFloat.value (PyFloat.mul x scale_factor)) as [v|] eqn:Hv;
    [|discriminate].
  simpl. intros H. inversion H. subst k.
  apply to_int_floor; [|assumption].
  apply mul_sign; [eapply of_int_sign; eassumption | now apply positive_sign].
Qed.

Lemma new_dimensions_floor (w h fw fh : Z) (scale_factor : PyFloat.float) :
  0 <= w -> 0 <= h -> PyFloat.positive scale_factor = true ->
  floor_scaled w scale_factor = Some fw ->
  floor_scaled h scale_factor = Some fh ->
  new_dimensions w h scale_factor = Ok (fw, fh).
Proof.
  intros Hw Hh Hs Hfw Hfh. unfold new_dimensions.
  rewrite (scaled_floor w fw), (scaled_floor h fh) by assumption.
  reflexivity.
Qed.

End Floats.

(* ------------------------------------------------------------------ *)
(** ** Running the monad *)
(* ------------------------------------------------------------------ *)

Section Runs.

Variable E : env.

Lemma bind_ok {A B} (m : M E A) (k : A -> M E B) (w w' : world E) (a : A) :
  m w = (Ok a, w') -> bind m k w = k a w'.
Proof. intros H. unfold bind. now rewrite H. Qed.

Lemma bind_raise {A B} (m : M E A) (k : A -> M E B) (w w' : world E) e :
  m w = (Raise e, w') -> bind m k w = (Raise e, w').
Proof. intros H. unfold bind. now rewrite H. Qed.

Lemma bind_cong {A B} (m m' : M E A) (k k' : A -> M E B) (w : world E) :
  m w = m' w -> (forall a w1, k a w1 = k' a w1) ->
  bind m k w = bind m' k' w.
Proof.
  intros Hm Hk. unfold bind. rewrite Hm.
  destruct (m' w) as [[a|e] w1]; [apply Hk | reflexivity].
Qed.

Lemma try_ok {A} (m : M E A) (h : exn -> M E A) (w w' : world E) (a : A) :
  m w = (Ok a, w') -> try_except m h w = (Ok a, w').
Proof. intros H. unfold try_except. now rewrite H. Qed.

Lemma call_run {A} (f : sys E -> result A * sys E) ev (w : world E) r s' :
  f (st w) = (r, s') ->
  call E f ev w = (r, mkWorld s' (trace w ++ [ev r])).
Proof. intros H. unfold call. now rewrite H. Qed.

Lemma call__run {A} (f : sys E -> result A * sys E) ev (w : world E) r s' :
  f (st w) = (r, s') ->
  call_ E f ev w = (r, mkWorld s' (trace w ++ [ev (outcome r)])).
Proof. intros H. unfold call_, call. now rewrite H. Qed.

End Runs.

(** Unfolds the sequencing of a run and tidies the trace. *)
Ltac run_simpl :=
  unfold bind, try_except, lift, ret, print; simpl;
  rewrite <- ?app_assoc; simpl.

(* ------------------------------------------------------------------ *)
(** ** The size of a thumbnail *)
(* ------------------------------------------------------------------ *)

Section ThumbnailSize.

Variable E : env.
Local Open Scope Z_scope.

(** C4: with a positive scale factor, the still image that is saved and the
    frame that is kept both have width [floor(width * scale_factor)] and
    height [floor(height * scale_factor)] of their source, the one factor
    being applied to each axis; the product is the binary64 product. *)
Theorem thumbnail_size_is_floor
  (scale_factor : PyFloat.float) (img_path new_file_path : path)
  (w : world E) (img out : image E) (s1 s2 : sys E) (fw fh : Z)
  (frame : ndarray E) (fimg rgb fout : image E) (gw gh : Z)
  (Hpos : PyFloat.positive scale_factor = true)
  (Hopen : sys_Image_open E img_path (st w) = (Ok img, s1))
  (Hw : 0 <= width E img) (Hh : 0 <= height E img)
  (Hfw : floor_scaled (width E img) scale_factor = Some fw)
  (Hfh : floor_scaled (height E img) scale_factor = Some fh)
  (Hres : Image_resize E img (fw, fh) None = Ok out)
  (Hsave : sys_Image_save E out new_file_path s1 = (Ok tt, s2))
  (Harr : Image_fromarray E frame = Ok fimg)
  (Hgw0 : 0 <= width E fimg) (Hgh0 : 0 <= height E fimg)
  (Hconv : Image_convert E fimg "RGB" = Ok rgb)
  (Hgw : floor_scaled (width E fimg) scale_factor = Some gw)
  (Hgh : floor_scaled (height E fimg) scale_factor = Some gh)
  (Hres2 : Image_resize E rgb (gw, gh) (Some "LANCZOS"%string) = Ok fout) :
  resize_still E img_path new_file_path scale_factor w
  = (Ok tt,
     mkWorld s2
       (trace w ++
        [EvImageOpen img_path None;
         EvImageSave out new_file_path None;
         EvPrint ("Resized and saved: " ++ path_str new_file_path)]))
  /\ width E out = fw /\ height E out = fh
  /\ process_frame E frame scale_factor = Ok fout
  /\ width E fout = gw /\ height E fout = gh.
Proof.
  pose proof (resize_size E _ _ _ _ Hres) as Hout.
  pose proof (resize_size E _ _ _ _ Hres2) as Hfout.
  pose proof (convert_size E _ _ _ Hconv) as [Hcw Hch].
  inversion Hout. inversion Hfout.
  repeat split; try reflexivity.
  - unfold resize_still, Image_open, Image_save.
    rewrite (bind_ok E _ _ _ _ _ (call__run E _ _ w _ _ Hopen)).
    rewrite (new_dimensions_floor _ _ fw fh) by assumption.
    run_simpl. unfold call_, call. simpl. rewrite Hres. simpl.
    rewrite Hsave. simpl. rewrite <- !app_assoc. reflexivity.
  - unfold process_frame. rewrite Harr. simpl. rewrite Hconv. simpl.
    rewrite Hcw, Hch.
    rewrite (new_dimensions_floor _ _ gw gh) by assumption.
    simpl. exact Hres2.
Qed.

End ThumbnailSize.

Lemma thumbnail_size_is_floor_witness :
  (resize_still Sim.E (os_path_join Sim.folder "photo.png")
    (os_path_join Sim.folder "photo_thumb.png") PyFloat.f0_5
    (Sim.start Sim.fs_photos)
  = (Ok tt,
     mkWorld
       (Sim.with_entries Sim.fs_photos
          (Sim.store "photo_thumb.png" (Sim.Still (Sim.mkImg 320 240 "RGBA"))
             (Sim.entries Sim.fs_photos)) : sys Sim.E)
       ([] ++
        [EvImageOpen (os_path_join Sim.folder "photo.png") None;
         EvImageSave (Sim.mkImg 320 240 "RGBA" : image Sim.E)
           (os_path_join Sim.folder "photo_thumb.png") None;
         EvPrint ("Resized and saved: " ++
                  path_str (os_path_join Sim.folder "photo_thumb.png"))]))
  /\ width Sim.E (Sim.mkImg 320 240 "RGBA") = 320
  /\ height Sim.E (Sim.mkImg 320 240 "RGBA") = 240
  /\ process_frame Sim.E (Sim.GoodArr (Sim.mkImg 100 60 "P")) PyFloat.f0_5
     = Ok (Sim.mkImg 50 30 "RGB")
  /\ width Sim.E (Sim.mkImg 50 30 "RGB") = 50
  /\ height Sim.E (Sim.mkImg 50 30 "RGB") = 30)%Z.
Proof.
  apply (thumbnail_size_is_floor Sim.E PyFloat.f0_5
           (os_path_join Sim.folder "photo.png")
           (os_path_join Sim.folder "photo_thumb.png")
           (Sim.start Sim.fs_photos)
           (Sim.mkImg 640%Z 480%Z "RGBA") (Sim.mkImg 320%Z 240%Z "RGBA")
           Sim.fs_photos _ 320%Z 240%Z
           (Sim.GoodArr (Sim.mkImg 100%Z 60%Z "P"))
           (Sim.mkImg 100%Z 60%Z "P") (Sim.mkImg 100%Z 60%Z "RGB")
           (Sim.mkImg 50%Z 30%Z "RGB") 50%Z 30%Z);
    try reflexivity; simpl; lia.
Defined.

(* ------------------------------------------------------------------ *)
(** ** resize_gif *)
(* ------------------------------------------------------------------ *)

Section ResizeGif.

Variable E : env.
Variable scale_factor : PyFloat.float.

(** The loop over a reader that yields all its frames. *)
Lemma frames_loop_run (frames : list (ndarray E)) :
  forall (acc : list (image E)) (w : world E),
    frames_loop E (map Ok frames) scale_factor acc w
    = (Ok (acc ++ surviving_frames E scale_factor frames),
       mkWorld (st w) (trace w ++ dropped_frames_log E scale_factor frames)).
Proof.
  induction frames as [|frame rest IH]; intros acc w; simpl.
  - rewrite !app_nil_r. now destruct w.
  - unfold bind at 1. simpl. unfold bind at 1, try_except, lift at 1. simpl.
    destruct (process_frame E frame scale_factor) as [resized|e]; simpl.
    + rewrite IH. now rewrite <- app_assoc.
    + rewrite IH. simpl. now rewrite <- app_assoc.
Qed.

(** An error of the iteration itself is not caught by the inner [try]. *)
Lemma frames_loop_reader_error (frames : list (ndarray E)) e rest :
  forall (acc : list (image E)) (w : world E),
    frames_loop E (map Ok frames ++ Raise e :: rest) scale_factor acc w
    = (Raise e,
       mkWorld (st w) (trace w ++ dropped_frames_log E scale_factor frames)).
Proof.
  induction frames as [|frame more IH]; intros acc w; simpl.
  - rewrite app_nil_r. now destruct w.
  - unfold bind at 1. simpl. unfold bind at 1, try_except, lift at 1. simpl.
    destruct (process_frame E frame scale_factor) as [resized|e']; simpl.
    + now rewrite IH.
    + rewrite IH. simpl. now rewrite <- app_assoc.
Qed.

Lemma surviving_frames_app (xs ys : list (ndarray E)) :
  surviving_frames E scale_factor (xs ++ ys)
  = surviving_frames E scale_factor xs ++ surviving_frames E scale_factor ys.
Proof.
  induction xs as [|x xs IH]; simpl; [reflexivity|].
  destruct (process_frame E x scale_factor); simpl; now rewrite IH.
Qed.

Lemma dropped_frames_log_app (xs ys : list (ndarray E)) :
  dropped_frames_log E scale_factor (xs ++ ys)
  = dropped_frames_log E scale_factor xs
    ++ dropped_frames_log E scale_factor ys.
Proof.
  induction xs as [|x xs IH]; simpl; [reflexivity|].
  destruct (process_frame E x scale_factor); simpl; now rewrite IH.
Qed.

Lemma surviving_all_ok (xs : list (ndarray E)) :
  forallb (frame_ok E scale_factor) xs = true ->
  length (surviving_frames E scale_factor xs) = length xs
  /\ dropped_frames_log E scale_factor xs = [].
Proof.
  induction xs as [|x xs IH]; simpl; [intros _; split; reflexivity|].
  unfold frame_ok at 1.
  destruct (process_frame E x scale_factor); simpl; [|discriminate].
  intros H. destruct (IH H) as [Hl Hd]. now rewrite Hl, Hd.
Qed.

(** The whole of [resize_gif] when the reader opens and yields all its
    frames. *)
Lemma resize_gif_run (img_path new_file_path : path) (w : world E)
      (frames : list (ndarray E)) (s1 s2 : sys E) (r : result unit) :
  sys_get_reader E img_path (st w) = (Ok (map Ok frames), s1) ->
  sys_mimsave E new_file_path (surviving_frames E scale_factor frames)
              PyFloat.f0_1 s1 = (r, s2) ->
  resize_gif E img_path new_file_path scale_factor w
  = (Ok tt,
     mkWorld s2
       (trace w ++ EvGetReader img_path None
        :: dropped_frames_log E scale_factor frames
        ++ [EvMimsave new_file_path (surviving_frames E scale_factor frames)
              PyFloat.f0_1 (outcome r);
            EvPrint (match r with
                     | Ok _ => "Resized and saved GIF: "
                               ++ path_str new_file_path
                     | Raise e => "Error resizing GIF " ++ path_str img_path
                                  ++ ": " ++ exn_str e
                     end)])).
Proof.
  intros Hread Hsave. unfold resize_gif, imageio_get_reader, imageio_mimsave.
  unfold try_except.
  rewrite (bind_ok E _ _ _ _ _ (call__run E _ _ w _ _ Hread)).
  unfold bind at 1. rewrite frames_loop_run. simpl.
  unfold bind, call_, call. simpl. rewrite Hsave.
  destruct r as [[]|e]; simpl; unfold print; simpl;
    rewrite <- !app_assoc; simpl; rewrite <- ?app_assoc; reflexivity.
Qed.

(** A reader that raises while it is iterated is outside the inner [try]:
    the file is given up and [imageio.mimsave] is not called. *)
Lemma resize_gif_reader_error
      (img_path new_file_path : path) (w : world E)
      (frames : list (ndarray E)) (e : exn)
      (rest : list (result (ndarray E))) (s1 : sys E) :
  sys_get_reader E img_path (st w)
  = (Ok (map Ok frames ++ Raise e :: rest), s1) ->
  resize_gif E img_path new_file_path scale_factor w
  = (Ok tt,
     mkWorld s1
       (trace w ++ EvGetReader img_path None
        :: dropped_frames_log E scale_factor frames
        ++ [EvPrint ("Error resizing GIF " ++ path_str img_path ++ ": "
                     ++ exn_str e)])).
Proof.
  intros Hread. unfold resize_gif, imageio_get_reader, try_except.
  rewrite (bind_ok E _ _ _ _ _ (call__run E _ _ w _ _ Hread)).
  unfold bind at 1. rewrite frames_loop_reader_error. simpl.
  unfold print. simpl. repeat (rewrite <- app_assoc; simpl). reflexivity.
Qed.

(** C6: when [imageio.get_reader] raises, the file is given up with one
    logged line and [imageio.mimsave] is never called, so nothing is written
    at the target; when the reader opens and yields its frames, the target
    is written with the frames that survived, whichever frames failed. *)
Theorem resize_gif_decode_failure_or_partial_output
  (img_path new_file_path : path) (w1 w2 : world E) (e : exn)
  (frames : list (ndarray E)) (s1 s2 s3 : sys E)
  (Hfail : sys_get_reader E img_path (st w1) = (Raise e, s1))
  (Hread : sys_get_reader E img_path (st w2) = (Ok (map Ok frames), s2))
  (Hsave : sys_mimsave E new_file_path
             (surviving_frames E scale_factor frames) PyFloat.f0_1 s2
           = (Ok tt, s3)) :
  resize_gif E img_path new_file_path scale_factor w1
  = (Ok tt,
     mkWorld s1
       (trace w1 ++
        [EvGetReader img_path (Some e);
         EvPrint ("Error resizing GIF " ++ path_str img_path ++ ": "
                  ++ exn_str e)]))
  /\ resize_gif E img_path new_file_path scale_factor w2
     = (Ok tt,
        mkWorld s3
          (trace w2 ++ EvGetReader img_path None
           :: dropped_frames_log E scale_factor frames
           ++ [EvMimsave new_file_path
                 (surviving_frames E scale_factor frames) PyFloat.f0_1 None;
               EvPrint ("Resized and saved GIF: "
                        ++ path_str new_file_path)])).
Proof.
  split.
  - unfold resize_gif, imageio_get_reader, try_except.
    rewrite (bind_raise E _ _ _ _ _ (call__run E _ _ w1 _ _ Hfail)).
    unfold print. simpl. now rewrite <- app_assoc.
  - now rewrite (resize_gif_run _ _ _ _ _ _ _ Hread Hsave).
Qed.

(** C7: of [n] frames that the reader yields, if exactly one fails in the
    body of the inner [try], that is in [Image.fromarray], in [convert], in
    the computation of the size or in [resize], one line is logged for it
    and [imageio.mimsave] receives the [n-1] others, in order, with the
    duration 0.1. *)
Theorem resize_gif_drops_the_corrupt_frame
  (img_path new_file_path : path) (w : world E)
  (before after : list (ndarray E)) (bad : ndarray E) (e : exn)
  (s1 s2 : sys E)
  (Hbefore : forallb (frame_ok E scale_factor) before = true)
  (Hbad : process_frame E bad scale_factor = Raise e)
  (Hafter : forallb (frame_ok E scale_factor) after = true)
  (Hread : sys_get_reader E img_path (st w)
           = (Ok (map Ok (before ++ bad :: after)), s1))
  (Hsave : sys_mimsave E new_file_path
             (surviving_frames E scale_factor (before ++ bad :: after))
             PyFloat.f0_1 s1
           = (Ok tt, s2)) :
  let out := surviving_frames E scale_factor before
             ++ surviving_frames E scale_factor after in
  resize_gif E img_path new_file_path scale_factor w
  = (Ok tt,
     mkWorld s2
       (trace w ++
        [EvGetReader img_path None;
         EvPrint ("Error processing frame: " ++ exn_str e);
         EvMimsave new_file_path out PyFloat.f0_1 None;
         EvPrint ("Resized and saved GIF: " ++ path_str new_file_path)]))
  /\ S (length out) = length (before ++ bad :: after)
  /\ length (surviving_frames E scale_factor before) = length before
  /\ length (surviving_frames E scale_factor after) = length after.
Proof.
  intros out.
  destruct (surviving_all_ok _ Hbefore) as [Hlb Hdb].
  destruct (surviving_all_ok _ Hafter) as [Hla Hda].
  assert (Hout : surviving_frames E scale_factor (before ++ bad :: after)
                 = out).
  { rewrite surviving_frames_app. simpl. now rewrite Hbad. }
  assert (Hlog : dropped_frames_log E scale_factor (before ++ bad :: after)
                 = [EvPrint ("Error processing frame: " ++ exn_str e)]).
  { rewrite dropped_frames_log_app. simpl. now rewrite Hbad, Hdb, Hda. }
  repeat split; try assumption.
  - rewrite (resize_gif_run _ _ _ _ _ _ _ Hread Hsave), Hout, Hlog.
    reflexivity.
  - unfold out. rewrite !length_app, Hlb, Hla. simpl. lia.
Qed.

End ResizeGif.

Lemma resize_gif_decode_failure_or_partial_output_witness :
  resize_gif Sim.E Sim.clip Sim.clip_thumb PyFloat.f0_5
    (Sim.start Sim.fs_corrupt_gif)
  = (Ok tt,
     mkWorld (Sim.fs_corrupt_gif : sys Sim.E)
       [EvGetReader Sim.clip
          (Some (ValueError "Could not find a backend to open it"));
        EvPrint ("Error resizing GIF /srv/background/clip.gif: "
                 ++ "Could not find a backend to open it")])
  /\ resize_gif Sim.E Sim.clip Sim.clip_thumb PyFloat.f0_5
       (Sim.start Sim.fs_photos)
     = (Ok tt,
        mkWorld
          (Sim.with_entries Sim.fs_photos
             (Sim.entries Sim.fs_photos
              ++ [("clip_thumb.gif",
                   Sim.Anim [Ok (Sim.GoodArr Sim.thumb50);
                             Ok (Sim.GoodArr Sim.thumb50)])]) : sys Sim.E)
          [EvGetReader Sim.clip None;
           EvPrint "Error processing frame: Cannot handle this data type";
           EvMimsave Sim.clip_thumb
             ([Sim.thumb50; Sim.thumb50] : list (image Sim.E))
             PyFloat.f0_1 None;
           EvPrint "Resized and saved GIF: /srv/background/clip_thumb.gif"]).
Proof.
  apply (resize_gif_decode_failure_or_partial_output Sim.E PyFloat.f0_5
           Sim.clip Sim.clip_thumb
           (Sim.start Sim.fs_corrupt_gif) (Sim.start Sim.fs_photos)
           (ValueError "Could not find a backend to open it")
           [Sim.frame100; Sim.BadArr; Sim.frame100]
           Sim.fs_corrupt_gif Sim.fs_photos);
    reflexivity.
Defined.

Lemma resize_gif_drops_the_corrupt_frame_witness :
  resize_gif Sim.E Sim.clip Sim.clip_thumb PyFloat.f0_5
    (Sim.start Sim.fs_photos)
  = (Ok tt,
     mkWorld
       (Sim.with_entries Sim.fs_photos
          (Sim.entries Sim.fs_photos
           ++ [("clip_thumb.gif",
                Sim.Anim [Ok (Sim.GoodArr Sim.thumb50);
                          Ok (Sim.GoodArr Sim.thumb50)])]) : sys Sim.E)
       [EvGetReader Sim.clip None;
        EvPrint "Error processing frame: Cannot handle this data type";
        EvMimsave Sim.clip_thumb
          ([Sim.thumb50; Sim.thumb50] : list (image Sim.E))
          PyFloat.f0_1 None;
        EvPrint "Resized and saved GIF: /srv/background/clip_thumb.gif"])
  /\ 3 = length [Sim.frame100; Sim.BadArr; Sim.frame100]
  /\ 1 = length [Sim.frame100]
  /\ 1 = length [Sim.frame100].
Proof.
  apply (resize_gif_drops_the_corrupt_frame Sim.E PyFloat.f0_5
           Sim.clip Sim.clip_thumb (Sim.start Sim.fs_photos)
           [Sim.frame100] [Sim.frame100] Sim.BadArr
           (ValueError "Cannot handle this data type")
           Sim.fs_photos);
    reflexivity.
Defined.

(** C7, as the specification words it, fails for a frame that cannot be
    decoded: [clip.gif] has three frames and the reader raises on the
    second.  The run logs one line for the file, never calls
    [imageio.mimsave], and leaves no [clip_thumb.gif]: there is no output of
    two frames. *)
Lemma resize_gif_gives_no_output_for_an_undecodable_frame :
  let run := resize_gif Sim.E Sim.clip Sim.clip_thumb PyFloat.f0_5
               (Sim.start Sim.fs_truncated_gif) in
  Sim.get_reader Sim.clip Sim.fs_truncated_gif
  = (Ok [Ok Sim.frame100; Raise (ValueError "image file is truncated");
         Ok Sim.frame100],
     Sim.fs_truncated_gif)
  /\ run
     = (Ok tt,
        mkWorld (Sim.fs_truncated_gif : sys Sim.E)
          [EvGetReader Sim.clip None;
           EvPrint ("Error resizing GIF /srv/background/clip.gif: "
                    ++ "image file is truncated")])
  /\ Sim.lookup "clip_thumb.gif" (Sim.entries (st (snd run))) = None
  /\ ~ (exists frames duration r,
          In (EvMimsave Sim.clip_thumb frames duration r)
             (trace (snd run))).
Proof.
  intros run. split; [reflexivity|]. split; [reflexivity|].
  split; [reflexivity|].
  intros (frames & duration & r & Hin). simpl in Hin.
  destruct Hin as [H|[H|[]]]; discriminate.
Qed.

(* ------------------------------------------------------------------ *)
(** ** delete_thumb_files *)
(* ------------------------------------------------------------------ *)

Section DeleteThumbFiles.

Variable E : env.

(** In any environment: when the removal of the first listed thumbnail
    raises, the [except] that wraps the whole loop ends the stage; no later
    entry is looked at. *)
Lemma delete_thumb_files_first_failure
      (folder_path filename : string) (rest : list string) (w : world E)
      (s1 s2 : sys E) (e : exn) :
  sys_listdir E folder_path (st w) = (Ok (filename :: rest), s1) ->
  PyStr.contains "_thumb" filename = true ->
  sys_remove E (os_path_join folder_path filename) s1 = (Raise e, s2) ->
  delete_thumb_files E folder_path w
  = (Ok tt,
     mkWorld s2
       (trace w ++
        [EvListdir folder_path (Ok (filename :: rest));
         EvRemove (os_path_join folder_path filename) (Some e);
         EvPrint ("Error deleting files: " ++ exn_str e)])).
Proof.
  intros Hlist Hthumb Hrm. unfold delete_thumb_files, os_listdir, try_except.
  rewrite (bind_ok E _ _ _ _ _ (call_run E _ _ w _ _ Hlist)).
  simpl. rewrite Hthumb. unfold os_remove, bind, call_, call. simpl.
  rewrite Hrm. simpl. unfold print. simpl. now rewrite <- !app_assoc.
Qed.

End DeleteThumbFiles.

(** C2 (the code departs from it): with two stale thumbnails of which the
    first cannot be removed, [delete_thumb_files] logs the failure and
    returns; [b_thumb.png] is never attempted and stays in the folder. *)
Theorem delete_thumb_files_gives_up_after_one_failure :
  delete_thumb_files Sim.E Sim.folder (Sim.start Sim.fs_locked_thumb)
  = (Ok tt,
     mkWorld (Sim.fs_locked_thumb : sys Sim.E)
       [EvListdir Sim.folder (Ok ["a_thumb.png"; "b_thumb.png"]);
        EvRemove (os_path_join Sim.folder "a_thumb.png")
                 (Some (OSError "Permission denied"));
        EvPrint "Error deleting files: Permission denied"]).
Proof. reflexivity. Qed.

(* ------------------------------------------------------------------ *)
(** ** Listing failures in resize_images_in_folder *)
(* ------------------------------------------------------------------ *)

(** C1 (the code departs from it): on a folder that cannot be listed, the
    cleanup stage logs the error of its own listing, and the listing of
    line 86, which no [try] protects, raises to the caller. *)
Theorem resize_images_in_folder_raises_when_listing_fails :
  resize_images_in_folder Sim.E Sim.folder PyFloat.f0_25
    (Sim.start Sim.fs_absent)
  = (Raise (OSError "No such file or directory"),
     mkWorld (Sim.fs_absent : sys Sim.E)
       [EvListdir Sim.folder (Raise (OSError "No such file or directory"));
        EvPrint "Error deleting files: No such file or directory";
        EvListdir Sim.folder (Raise (OSError "No such file or directory"))]).
Proof. reflexivity. Qed.

(* ------------------------------------------------------------------ *)
(** ** Loops *)
(* ------------------------------------------------------------------ *)

Section Loops.

Variable E : env.

Lemma for_app {A} (xs ys : list A) (body : A -> M E unit) (w : world E) :
  for_ (xs ++ ys) body w = bind (for_ xs body) (fun _ => for_ ys body) w.
Proof.
  revert w. induction xs as [|x xs IH]; intros w; simpl; [reflexivity|].
  unfold bind. destruct (body x w) as [[a|e] w1]; [|reflexivity].
  exact (IH w1).
Qed.

Lemma for_map {A B} (g : A -> B) (xs : list A) (body : B -> M E unit)
      (w : world E) :
  for_ (map g xs) body w = for_ xs (fun x => body (g x)) w.
Proof.
  revert w. induction xs as [|x xs IH]; intros w; simpl; [reflexivity|].
  unfold bind. destruct (body (g x) w) as [[a|e] w1]; [|reflexivity].
  apply IH.
Qed.

End Loops.

(* ------------------------------------------------------------------ *)
(** ** The manifest *)
(* ------------------------------------------------------------------ *)

Section Manifest.

Variable E : env.

(** Writing lines one after the other: either all writes return, or one
    raises and is the last event. *)
Lemma write_lines_run (p : path) (lines : list string) :
  forall w : world E,
  exists r w' t,
    for_ lines (f_write E p) w = (r, w')
    /\ trace w' = trace w ++ t
    /\ ((r = Ok tt /\ t = map (fun line => EvWrite p line None) lines)
        \/ ((exists e, r = Raise e) /\ forallb ev_ok t = false)).
Proof.
  induction lines as [|line rest IH]; intros w; simpl.
  - exists (Ok tt), w, []. rewrite app_nil_r. repeat split. now left.
  - unfold bind, f_write at 1, call_, call.
    destruct (sys_write E p line (st w)) as [[[]|e] s1]; simpl.
    + destruct (IH (mkWorld s1 (trace w ++ [EvWrite p line None])))
        as (r & w' & t & Hrun & Ht & Hshape).
      exists r, w', (EvWrite p line None :: t). rewrite Hrun.
      split; [reflexivity|]. split.
      { rewrite Ht. simpl. now rewrite <- app_assoc. }
      destruct Hshape as [[-> ->]|[He Hf]]; [now left | now right].
    + eexists (Raise e), _, [EvWrite p line (Some e)].
      split; [reflexivity|]. split; [reflexivity|]. right. split; eauto.
Qed.

(** The lines of one section, as lines 106-109 write them. *)
Lemma manifest_section_run (p : path) (format : string) (files : list string)
      (w : world E) :
  bind (f_write E p ("Format: " ++ format ++ nl)) (fun _ =>
  bind (for_ files (fun file => f_write E p ("- " ++ file ++ nl)))
       (fun _ => f_write E p nl)) w
  = for_ (manifest_section format files) (f_write E p) w.
Proof.
  unfold manifest_section. cbn [for_]. unfold bind.
  destruct (f_write E p ("Format: " ++ format ++ nl) w) as [[u|e] w1];
    [|reflexivity].
  rewrite for_app. unfold bind. rewrite for_map.
  destruct (for_ files _ w1) as [[u1|e] w2]; [|reflexivity].
  cbn [for_]. unfold bind, ret.
  destruct (f_write E p nl w2) as [[[]|e] w3]; reflexivity.
Qed.

(** The nested loops of lines 105-109 write the lines of the sections, one
    section per key, in the order of the keys. *)
Lemma manifest_body_flat (p : path) (image_formats : catalog) :
  forall w : world E,
    for_ image_formats
      (fun kv => let (format, files) := kv in
         bind (f_write E p ("Format: " ++ format ++ nl)) (fun _ =>
         bind (for_ files (fun file => f_write E p ("- " ++ file ++ nl)))
              (fun _ => f_write E p nl))) w
    = for_ (flat_map (fun kv => manifest_section (fst kv) (snd kv))
                     image_formats)
           (f_write E p) w.
Proof.
  induction image_formats as [|[format files] rest IH]; intros w;
    [reflexivity|].
  cbn [for_ flat_map fst snd]. rewrite for_app.
  apply bind_cong; [apply manifest_section_run | intros _ w1; apply IH].
Qed.

End Manifest.

(* ------------------------------------------------------------------ *)
(** ** Splitting at the dots *)
(* ------------------------------------------------------------------ *)

Section Split.

Variable sep : ascii.

Lemma split_nonempty (s : string) : PyStr.split sep s <> [].
Proof.
  destruct s as [|c rest]; simpl; [discriminate|].
  destruct (Ascii.eqb c sep); [discriminate|].
  destruct (PyStr.split sep rest); discriminate.
Qed.

Lemma split_no_sep (s : string) :
  has_char sep s = false -> PyStr.split sep s = [s].
Proof.
  induction s as [|c rest IH]; simpl; [reflexivity|].
  intros H. apply orb_false_iff in H. destruct H as [Hc Hrest].
  rewrite Hc, (IH Hrest). reflexivity.
Qed.

Lemma split_has_sep (s : string) :
  has_char sep s = true ->
  exists piece next pieces, PyStr.split sep s = piece :: next :: pieces.
Proof.
  induction s as [|c rest IH]; simpl; [discriminate|].
  destruct (Ascii.eqb c sep) eqn:Hc; simpl.
  - intros _. destruct (PyStr.split sep rest) as [|next pieces] eqn:Hs.
    + now apply split_nonempty in Hs.
    + now exists EmptyString, next, pieces.
  - intros H. destruct (IH H) as (piece & next & pieces & ->).
    now exists (String c piece), next, pieces.
Qed.

Lemma getitem_last_cons {A} (x y : A) (l : list A) :
  getitem_last (x :: y :: l) = getitem_last (y :: l).
Proof.
  unfold getitem_last. simpl.
  destruct (rev l ++ [y]) as [|z zs] eqn:Hz; [|reflexivity].
  now destruct (rev l).
Qed.

(** [s.split(sep)[-1]] never raises: it is the text after the last
    separator. *)
Lemma getitem_last_split (s : string) :
  getitem_last (PyStr.split sep s) = Ok (after_last sep s).
Proof.
  induction s as [|c rest IH]; [reflexivity|]. simpl.
  destruct (has_char sep rest) eqn:Hrest.
  - destruct (split_has_sep rest Hrest) as (piece & next & pieces & Hs).
    rewrite Hs in *.
    destruct (Ascii.eqb c sep); rewrite !getitem_last_cons in *; exact IH.
  - rewrite (split_no_sep rest Hrest).
    destruct (Ascii.eqb c sep); reflexivity.
Qed.

Lemma has_char_app (a b : string) :
  has_char sep (a ++ b) = has_char sep a || has_char sep b.
Proof.
  induction a as [|c a IH]; simpl; [reflexivity|].
  now rewrite IH, orb_assoc.
Qed.

(** [after_last] is what its name says. *)
Lemma after_last_spec (before ext : string) :
  has_char sep ext = false ->
  after_last sep (before ++ String sep ext) = ext.
Proof.
  intros Hext. induction before as [|c before IH]; simpl.
  - now rewrite Hext, Ascii.eqb_refl.
  - rewrite has_char_app. simpl. rewrite Ascii.eqb_refl, orb_true_r.
    exact IH.
Qed.

Lemma after_last_no_sep (s : string) :
  has_char sep s = false -> after_last sep s = s.
Proof.
  destruct s as [|c rest]; simpl; [reflexivity|].
  intros H. apply orb_false_iff in H. destruct H as [Hc Hrest].
  now rewrite Hrest, Hc.
Qed.

End Split.

(* ------------------------------------------------------------------ *)
(** ** The format table *)
(* ------------------------------------------------------------------ *)

Section Dict.

Lemma dict_append_keys (key v : string) (d : catalog) :
  map fst (dict_append key v d) = map fst d.
Proof.
  induction d as [|[k vs] rest IH]; simpl; [reflexivity|].
  destruct (String.eqb k key); simpl; [reflexivity | now rewrite IH].
Qed.

Lemma dict_mem_keys (key : string) (d d' : catalog) :
  map fst d' = map fst d -> dict_mem key d' = dict_mem key d.
Proof.
  unfold dict_mem. revert d'.
  induction d as [|[k vs] rest IH]; intros [|[k' vs'] rest'] H;
    try discriminate; [reflexivity|].
  simpl in *. injection H as -> Hrest. now rewrite (IH rest' Hrest).
Qed.

Lemma dict_get_append (fmt key v : string) (d : catalog) :
  dict_get fmt (dict_append key v d)
  = dict_get fmt d
    ++ (if String.eqb key fmt && dict_mem fmt d then [v] else []).
Proof.
  induction d as [|[k vs] rest IH]; simpl.
  - now rewrite andb_false_r.
  - destruct (String.eqb k key) eqn:Hk; simpl.
    + apply String.eqb_eq in Hk. subst k.
      destruct (String.eqb key fmt) eqn:Hf; simpl; [reflexivity|].
      now rewrite app_nil_r.
    + destruct (String.eqb k fmt) eqn:Hf; simpl.
      * apply String.eqb_eq in Hf. subst k.
        rewrite String.eqb_sym, Hk. simpl. now rewrite app_nil_r.
      * exact IH.
Qed.

Lemma catalog_add_keys (d : catalog) (c : string) :
  map fst (catalog_add d c) = map fst d.
Proof.
  unfold catalog_add. destruct (dict_mem _ d); [|reflexivity].
  apply dict_append_keys.
Qed.

Lemma dict_get_add (fmt c : string) (d : catalog) :
  dict_mem fmt d = true ->
  dict_get fmt (catalog_add d c)
  = dict_get fmt d ++ (if String.eqb (extension c) fmt then [c] else []).
Proof.
  intros Hmem. unfold catalog_add.
  destruct (dict_mem (extension c) d) eqn:Hext.
  - now rewrite dict_get_append, Hmem, andb_true_r.
  - destruct (String.eqb (extension c) fmt) eqn:Hf; [|now rewrite app_nil_r].
    apply String.eqb_eq in Hf. congruence.
Qed.

(** After cataloguing the cleaned names [cs], the list of a format holds,
    after what it held, those of [cs] with that extension, in order. *)
Lemma dict_get_fold_add (fmt : string) (cs : list string) :
  forall d, dict_mem fmt d = true ->
    dict_get fmt (fold_left catalog_add cs d)
    = dict_get fmt d
      ++ filter (fun c => String.eqb (extension c) fmt) cs.
Proof.
  induction cs as [|c cs IH]; intros d Hmem; simpl.
  - now rewrite app_nil_r.
  - rewrite IH, dict_get_add by
      (try rewrite (dict_mem_keys fmt d _ (catalog_add_keys d c)); assumption).
    rewrite <- app_assoc.
    now destruct (String.eqb (extension c) fmt).
Qed.

Lemma dict_get_in_keys (fmt c : string) (d : catalog) :
  In c (dict_get fmt d) -> In fmt (map fst d).
Proof.
  induction d as [|[k vs] rest IH]; simpl; [tauto|].
  destruct (String.eqb k fmt) eqn:Hk.
  - apply String.eqb_eq in Hk. now left.
  - intros H. right. now apply IH.
Qed.

End Dict.

(* ------------------------------------------------------------------ *)
(** ** Normalize and catalog *)
(* ------------------------------------------------------------------ *)

Section Catalog.

Variable E : env.
Variable folder_path : string.

Lemma path_eqb_join (a b : string) :
  path_eqb (os_path_join folder_path a) (os_path_join folder_path b)
  = String.eqb a b.
Proof. unfold path_eqb. simpl. now rewrite String.eqb_refl. Qed.

(** One pass of the body of the loop of lines 86-100, in its three cases:
    no renaming needed, renaming done, renaming raised. *)
Lemma catalog_entry_run (image_formats : catalog) (filename : string)
      (w : world E) :
  let cleaned := clean_filename filename in
  let old_file_path := os_path_join folder_path filename in
  let new_file_path := os_path_join folder_path cleaned in
  catalog_entry E folder_path image_formats filename w
  = if String.eqb filename cleaned
    then (Ok (catalog_add image_formats cleaned), w)
    else match sys_rename E old_file_path new_file_path (st w) with
         | (Ok _, s1) =>
             (Ok (catalog_add image_formats cleaned),
              mkWorld s1
                (trace w ++ [EvRename old_file_path new_file_path None]))
         | (Raise e, s1) =>
             (Ok image_formats,
              mkWorld s1
                (trace w ++
                 [EvRename old_file_path new_file_path (Some e);
                  EvPrint ("Error processing file " ++ filename ++ ": "
                           ++ exn_str e)]))
         end.
Proof.
  intros cleaned old_file_path new_file_path.
  unfold catalog_entry, try_except. fold cleaned.
  rewrite path_eqb_join.
  assert (Htail : forall w1 : world E,
    bind (lift (getitem_last (PyStr.split "." cleaned)))
      (fun last_piece =>
         let file_extension := PyStr.lower last_piece in
         if dict_mem file_extension image_formats
         then ret (dict_append file_extension cleaned image_formats)
         else ret image_formats) w1
    = (Ok (catalog_add image_formats cleaned), w1)).
  { intros w1. unfold bind, lift. rewrite getitem_last_split.
    unfold catalog_add, extension. simpl.
    now destruct (dict_mem _ image_formats). }
  destruct (String.eqb filename cleaned); simpl.
  - unfold bind at 1, ret at 1. now rewrite Htail.
  - unfold bind at 1, os_rename, call_, call.
    fold old_file_path new_file_path.
    destruct (sys_rename E old_file_path new_file_path (st w))
      as [[[]|e] s1]; simpl.
    + now rewrite Htail.
    + unfold bind, print, ret. simpl. now rewrite <- app_assoc.
Qed.

(** The loop never raises and keeps the keys of the table; when no
    renaming raises, its renamings and its table are the expected ones. *)
Lemma catalog_loop_run (names : list string) :
  forall (image_formats : catalog) (w : world E),
  exists cat w' t,
    for_fold names image_formats (catalog_entry E folder_path) w
    = (Ok cat, w')
    /\ trace w' = trace w ++ t
    /\ map fst cat = map fst image_formats
    /\ (forallb ev_ok t = true ->
        t = rename_events folder_path names
        /\ cat = fold_left catalog_add (map clean_filename names)
                           image_formats).
Proof.
  induction names as [|filename rest IH]; intros image_formats w.
  - exists image_formats, w, []. simpl. rewrite app_nil_r. now repeat split.
  - cbn [for_fold]. unfold bind. rewrite catalog_entry_run.
    cbn [rename_events flat_map map fold_left].
    destruct (String.eqb filename (clean_filename filename)).
    + destruct (IH (catalog_add image_formats (clean_filename filename)) w)
        as (cat & w' & t & Hrun & Ht & Hkeys & Hok).
      exists cat, w', t. rewrite Hrun, Hkeys, catalog_add_keys.
      split; [reflexivity|]. split; [assumption|]. split; [reflexivity|].
      intros H. destruct (Hok H) as [-> ->]. now split.
    + destruct (sys_rename E _ _ (st w)) as [[[]|e] s1].
      * match goal with |- context [for_fold rest ?c _ ?w1] =>
          destruct (IH c w1) as (cat & w' & t & Hrun & Ht & Hkeys & Hok)
        end.
        eexists cat, w', (_ :: t). rewrite Hrun, Hkeys, catalog_add_keys.
        split; [reflexivity|]. split.
        { rewrite Ht. simpl. rewrite <- app_assoc. reflexivity. }
        split; [reflexivity|]. simpl. intros H.
        destruct (Hok H) as [-> ->]. now split.
      * match goal with |- context [for_fold rest ?c _ ?w1] =>
          destruct (IH c w1) as (cat & w' & t & Hrun & Ht & Hkeys & Hok)
        end.
        eexists cat, w', (_ :: _ :: t). rewrite Hrun, Hkeys.
        split; [reflexivity|]. split.
        { rewrite Ht. simpl. rewrite <- app_assoc. reflexivity. }
        split; [reflexivity|]. simpl. discriminate.
Qed.

End Catalog.

(** C8: in a pass of the loop of lines 86-100 in which no renaming raises,
    the extension of an entry is what follows the last dot of its cleaned
    name, lower-cased; the list of each of the four formats is the cleaned
    names with that extension, in the order of the listing; a name with
    another extension is in no list; and every entry whose cleaned name
    differs is renamed, whatever its extension. *)
Theorem normalize_and_catalog_pass
  (E : env) (folder_path : string) (names : list string)
  (w w' : world E) (r : result catalog) (t : list (event E))
  (Hrun : for_fold names image_formats0 (catalog_entry E folder_path) w
          = (r, w'))
  (Ht : trace w' = trace w ++ t)
  (Hok : forallb ev_ok t = true) :
  exists cat,
    r = Ok cat
    /\ map fst cat = formats
    /\ (forall cleaned,
          result_bind (getitem_last (PyStr.split "." cleaned))
                      (fun piece => Ok (PyStr.lower piece))
          = Ok (extension cleaned))
    /\ (forall fmt, In fmt formats ->
          dict_get fmt cat
          = filter (fun c => String.eqb (extension c) fmt)
                   (map clean_filename names))
    /\ (forall fmt c, In c (dict_get fmt cat) ->
          In fmt formats /\ extension c = fmt)
    /\ t = rename_events folder_path names.
Proof.
  destruct (catalog_loop_run E folder_path names image_formats0 w)
    as (cat & w1 & t1 & Hrun1 & Ht1 & Hkeys & Hok1).
  rewrite Hrun1 in Hrun. inversion Hrun. subst r w1. clear Hrun.
  rewrite Ht1 in Ht. apply app_inv_head in Ht. subst t1.
  destruct (Hok1 Hok) as [Hren Hcat].
  assert (Hget : forall fmt, In fmt formats ->
            dict_get fmt cat
            = filter (fun c => String.eqb (extension c) fmt)
                     (map clean_filename names)).
  { intros fmt Hin. rewrite Hcat, dict_get_fold_add.
    - simpl in Hin. decompose [or] Hin; subst; try reflexivity. contradiction.
    - simpl in Hin. decompose [or] Hin; subst; try reflexivity.
      contradiction. }
  exists cat. split; [reflexivity|]. split; [exact Hkeys|].
  split; [|split; [exact Hget|split; [|exact Hren]]].
  - intros cleaned. now rewrite getitem_last_split.
  - intros fmt c Hin.
    assert (Hfmt : In fmt formats).
    { change formats with (map fst image_formats0). rewrite <- Hkeys.
      eapply dict_get_in_keys; eassumption. }
    split; [exact Hfmt|].
    rewrite (Hget fmt Hfmt) in Hin. apply filter_In in Hin.
    now apply String.eqb_eq.
Qed.

Lemma normalize_and_catalog_pass_witness :
  exists cat,
    Ok [("png", ["photo.png"; "png"]); ("jpg", ["photo1.JPG"]);
        ("jpeg", []); ("gif", ["clip.gif"])] = Ok cat
    /\ map fst cat = formats
    /\ (forall cleaned,
          result_bind (getitem_last (PyStr.split "." cleaned))
                      (fun piece => Ok (PyStr.lower piece))
          = Ok (extension cleaned))
    /\ (forall fmt, In fmt formats ->
          dict_get fmt cat
          = filter (fun c => String.eqb (extension c) fmt)
                   (map clean_filename
                        ["photo.png"; "photo (1).JPG"; "clip.gif";
                         "notes.txt"; "png"]))
    /\ (forall fmt c, In c (dict_get fmt cat) ->
          In fmt formats /\ extension c = fmt)
    /\ [EvRename (os_path_join Sim.folder "photo (1).JPG")
                 (os_path_join Sim.folder "photo1.JPG") None]
       = rename_events (E := Sim.E) Sim.folder
           ["photo.png"; "photo (1).JPG"; "clip.gif"; "notes.txt"; "png"].
Proof.
  apply (normalize_and_catalog_pass Sim.E Sim.folder
           ["photo.png"; "photo (1).JPG"; "clip.gif"; "notes.txt"; "png"]
           (Sim.start Sim.fs_photos)
           (snd (for_fold
                   ["photo.png"; "photo (1).JPG"; "clip.gif"; "notes.txt";
                    "png"]
                   image_formats0 (catalog_entry Sim.E Sim.folder)
                   (Sim.start Sim.fs_photos))));
    reflexivity.
Defined.

(* ------------------------------------------------------------------ *)
(** ** Writing the manifest *)
(* ------------------------------------------------------------------ *)

Section WriteImageList.

Variable E : env.
Variable folder_path : string.

Lemma string_app_assoc (a b c : string) :
  ((a ++ b) ++ c)%string = (a ++ (b ++ c))%string.
Proof. induction a as [|x a IH]; simpl; [reflexivity | now rewrite IH]. Qed.

Lemma string_app_empty (a : string) : (a ++ EmptyString)%string = a.
Proof. induction a as [|x a IH]; simpl; [reflexivity | now rewrite IH]. Qed.

(** With the table in the declared order of its keys, the sections come out
    in the order png, jpg, jpeg, gif. *)
Lemma manifest_lines_flat (cat : catalog) :
  map fst cat = formats ->
  flat_map (fun kv => manifest_section (fst kv) (snd kv)) cat
  = manifest_lines cat.
Proof.
  intros H.
  destruct cat as [|[k1 v1] [|[k2 v2] [|[k3 v3] [|[k4 v4] [|]]]]];
    try discriminate.
  simpl in H. injection H as -> -> -> ->.
  unfold manifest_lines. simpl. now rewrite app_nil_r.
Qed.

(** The stage never raises; when all its calls return, they are the
    opening, one write per line of the flattened table, and the closing. *)
Lemma write_image_list_run (cat : catalog) (w : world E) :
  exists w' t,
    write_image_list E folder_path cat w = (Ok tt, w')
    /\ trace w' = trace w ++ t
    /\ (forallb ev_ok t = true ->
        t = EvOpenW (manifest_path folder_path) None
            :: map (fun line => EvWrite (manifest_path folder_path) line None)
                   (flat_map (fun kv => manifest_section (fst kv) (snd kv))
                             cat)
            ++ [EvClose (manifest_path folder_path) None]).
Proof.
  unfold write_image_list, with_open_w, try_except.
  fold (manifest_path folder_path). set (p := manifest_path folder_path).
  unfold bind at 1, open_w, call_, call.
  destruct (sys_open_w E p (st w)) as [[[]|e] s1]; simpl.
  - rewrite manifest_body_flat.
    match goal with |- context [for_ ?ls (f_write E p) ?w1] =>
      destruct (write_lines_run E p ls w1)
        as (r & w2 & t & Hrun & Ht & Hshape)
    end.
    rewrite Hrun. simpl in Ht.
    destruct r as [[]|e].
    + unfold bind, f_close, call_, call.
      destruct (sys_close E p (st w2)) as [[[]|e] s3]; simpl.
      * eexists _, (EvOpenW p None :: t ++ [EvClose p None]).
        split; [reflexivity|]. split.
        { simpl. rewrite Ht, <- !app_assoc. reflexivity. }
        intros _. destruct Hshape as [[_ ->]|[[e He] _]];
          [reflexivity | discriminate].
      * eexists _, (EvOpenW p None :: t ++ [EvClose p (Some e); EvPrint _]).
        split; [reflexivity|]. split.
        { simpl. rewrite Ht, <- !app_assoc. reflexivity. }
        simpl. rewrite forallb_app. simpl. rewrite andb_false_r.
        discriminate.
    + destruct Hshape as [[Hr _]|[_ Hfalse]]; [discriminate|].
      unfold bind, f_close, call_, call, lift.
      destruct (sys_close E p (st w2)) as [[[]|e'] s3]; simpl.
      * eexists _, (EvOpenW p None :: t ++ [EvClose p None; EvPrint _]).
        split; [reflexivity|]. split.
        { simpl. rewrite Ht, <- !app_assoc. reflexivity. }
        simpl. rewrite forallb_app, Hfalse. discriminate.
      * eexists _, (EvOpenW p None :: t ++ [EvClose p (Some e'); EvPrint _]).
        split; [reflexivity|]. split.
        { simpl. rewrite Ht, <- !app_assoc. reflexivity. }
        simpl. rewrite forallb_app, Hfalse. discriminate.
  - eexists _, [EvOpenW p (Some e); EvPrint _].
    split; [reflexivity|]. split.
    { simpl. rewrite <- !app_assoc. reflexivity. }
    simpl. discriminate.
Qed.

(** What the writes of a list of lines leave in the file. *)
Lemma file_text_writes (p : path) (lines : list string)
      (rest : list (event E)) :
  forall text : string,
    fold_left
      (fun text ev =>
         match ev with
         | EvOpenW q None => if path_eqb q p then EmptyString else text
         | EvWrite q more None =>
             if path_eqb q p then (text ++ more)%string else text
         | _ => text
         end)
      (map (fun line => EvWrite p line None) lines ++ rest) text
    = fold_left
        (fun text ev =>
           match ev with
           | EvOpenW q None => if path_eqb q p then EmptyString else text
           | EvWrite q more None =>
               if path_eqb q p then (text ++ more)%string else text
           | _ => text
           end)
        rest (text ++ fold_right String.append EmptyString lines)%string.
Proof.
  induction lines as [|line more IH]; intros text; simpl.
  - now rewrite string_app_empty.
  - assert (Hp : path_eqb p p = true).
    { unfold path_eqb. now rewrite !String.eqb_refl. }
    rewrite Hp, IH, string_app_assoc. reflexivity.
Qed.

End WriteImageList.

(** C5: when every call of the manifest stage returns, the stage opens
    [image_list.txt], writes, for png, jpg, jpeg and gif in this order, the
    line [Format: <fmt>], one line [- <file>] per file of the catalog in
    its order and one blank line, also for an empty list, and closes the
    file; the text left in the file is these lines. *)
Theorem manifest_lists_the_four_formats
  (E : env) (folder_path : string) (names : list string)
  (w w1 w2 : world E) (cat : catalog) (r : result unit)
  (t : list (event E))
  (Hcat : for_fold names image_formats0 (catalog_entry E folder_path) w
          = (Ok cat, w1))
  (Hrun : write_image_list E folder_path cat w1 = (r, w2))
  (Ht : trace w2 = trace w1 ++ t)
  (Hok : forallb ev_ok t = true) :
  r = Ok tt
  /\ t = EvOpenW (manifest_path folder_path) None
         :: map (fun line => EvWrite (manifest_path folder_path) line None)
                (manifest_lines cat)
         ++ [EvClose (manifest_path folder_path) None]
  /\ file_text (manifest_path folder_path) t = manifest_text cat
  /\ manifest_lines cat
     = manifest_section "png" (dict_get "png" cat)
       ++ manifest_section "jpg" (dict_get "jpg" cat)
       ++ manifest_section "jpeg" (dict_get "jpeg" cat)
       ++ manifest_section "gif" (dict_get "gif" cat).
Proof.
  destruct (catalog_loop_run E folder_path names image_formats0 w)
    as (cat' & w1' & t1 & Hrun1 & _ & Hkeys & _).
  rewrite Hrun1 in Hcat. inversion Hcat. subst cat' w1'. clear Hcat.
  destruct (write_image_list_run E folder_path cat w1)
    as (w2' & t' & Hrun' & Ht' & Hshape).
  rewrite Hrun' in Hrun. inversion Hrun. subst r w2'. clear Hrun.
  rewrite Ht' in Ht. apply app_inv_head in Ht. subst t'.
  specialize (Hshape Hok). rewrite manifest_lines_flat in Hshape by exact Hkeys.
  split; [reflexivity|]. split; [exact Hshape|]. split; [|reflexivity].
  rewrite Hshape. unfold file_text, manifest_text. cbn [fold_left].
  assert (Hp : path_eqb (manifest_path folder_path)
                        (manifest_path folder_path) = true).
  { unfold path_eqb. now rewrite !String.eqb_refl. }
  rewrite Hp, file_text_writes. reflexivity.
Qed.

Lemma manifest_lists_the_four_formats_witness :
  let names := ["photo.png"; "photo (1).JPG"; "clip.gif"; "notes.txt"; "png"] in
  let cat := [("png", ["photo.png"; "png"]); ("jpg", ["photo1.JPG"]);
              ("jpeg", []); ("gif", ["clip.gif"])] in
  let p := manifest_path Sim.folder in
  let t : list (event Sim.E) :=
    EvOpenW p None
    :: map (fun line => EvWrite p line None) (manifest_lines cat)
    ++ [EvClose p None] in
  Ok tt = Ok tt
  /\ t = EvOpenW p None
         :: map (fun line => EvWrite p line None) (manifest_lines cat)
         ++ [EvClose p None]
  /\ file_text p t
     = fold_right String.append EmptyString
         (map (fun line => (line ++ nl)%string)
              ["Format: png"; "- photo.png"; "- png"; EmptyString;
               "Format: jpg"; "- photo1.JPG"; EmptyString;
               "Format: jpeg"; EmptyString;
               "Format: gif"; "- clip.gif"; EmptyString])
  /\ manifest_lines cat
     = manifest_section "png" (dict_get "png" cat)
       ++ manifest_section "jpg" (dict_get "jpg" cat)
       ++ manifest_section "jpeg" (dict_get "jpeg" cat)
       ++ manifest_section "gif" (dict_get "gif" cat).
Proof.
  intros names cat p t.
  apply (manifest_lists_the_four_formats Sim.E Sim.folder names
           (Sim.start Sim.fs_photos)
           (snd (for_fold names image_formats0
                   (catalog_entry Sim.E Sim.folder)
                   (Sim.start Sim.fs_photos)))
           (snd (write_image_list Sim.E Sim.folder cat
                   (snd (for_fold names image_formats0
                           (catalog_entry Sim.E Sim.folder)
                           (Sim.start Sim.fs_photos)))))
           cat (Ok tt) t);
    reflexivity.
Defined.

(* ------------------------------------------------------------------ *)
(** ** Names without a dot *)
(* ------------------------------------------------------------------ *)

Section Dotless.

Lemma lower_char_dot (c : ascii) :
  Ascii.eqb (PyStr.lower_char c) "." = Ascii.eqb c ".".
Proof. destruct c as [[] [] [] [] [] [] [] []]; reflexivity. Qed.

Lemma has_dot_lower (s : string) :
  has_char "." (PyStr.lower s) = has_char "." s.
Proof.
  induction s as [|c rest IH]; simpl; [reflexivity|].
  now rewrite lower_char_dot, IH.
Qed.

Lemma has_char_replace (c old : ascii) (s : string) :
  Ascii.eqb c old = false ->
  has_char c (PyStr.replace old EmptyString s) = has_char c s.
Proof.
  intros Hc. induction s as [|a rest IH]; simpl; [reflexivity|].
  destruct (Ascii.eqb a old) eqn:Ha; simpl.
  - apply Ascii.eqb_eq in Ha. subst a.
    rewrite Ascii.eqb_sym, Hc. exact IH.
  - now rewrite IH.
Qed.

Lemma has_dot_clean (s : string) :
  has_char "." (clean_filename s) = has_char "." s.
Proof.
  unfold clean_filename. now rewrite !has_char_replace by reflexivity.
Qed.





End Dotless.

Section DotlessManifest.




End DotlessManifest.



(* ------------------------------------------------------------------ *)
(** ** The events of a computation *)
(* ------------------------------------------------------------------ *)

Section Emits.

Variable E : env.
Variable P : event E -> bool.

Lemma emits_ret {A} (a : A) : emits P (ret (E := E) a).
Proof.
  intros w. exists (Ok a), w, []. rewrite app_nil_r. now repeat split.
Qed.

Lemma emits_lift {A} (r : result A) : emits P (lift (E := E) r).
Proof.
  intros w. exists r, w, []. rewrite app_nil_r. now repeat split.
Qed.

Lemma emits_print (line : string) :
  P (EvPrint line) = true -> emits P (print E line).
Proof.
  intros H w. eexists (Ok tt), _, [EvPrint line].
  split; [reflexivity|]. split; [reflexivity|]. simpl. now rewrite H.
Qed.

Lemma emits_call {A} (f : sys E -> result A * sys E) ev :
  (forall r, P (ev r) = true) -> emits P (call E f ev).
Proof.
  intros H w. unfold call. destruct (f (st w)) as [r s1].
  eexists r, _, [ev r]. split; [reflexivity|]. split; [reflexivity|].
  simpl. now rewrite H.
Qed.

Lemma emits_call_ {A} (f : sys E -> result A * sys E) ev :
  (forall r, P (ev r) = true) -> emits P (call_ E f ev).
Proof. intros H. unfold call_. apply emits_call. intros r. apply H. Qed.

Lemma emits_bind {A B} (m : M E A) (k : A -> M E B) :
  emits P m -> (forall a, emits P (k a)) -> emits P (bind m k).
Proof.
  intros Hm Hk w. destruct (Hm w) as (r & w1 & t1 & Hrun & Ht & HP).
  unfold bind. rewrite Hrun. destruct r as [a|e].
  - destruct (Hk a w1) as (r2 & w2 & t2 & Hrun2 & Ht2 & HP2).
    exists r2, w2, (t1 ++ t2). split; [exact Hrun2|]. split.
    + now rewrite Ht2, Ht, app_assoc.
    + now rewrite forallb_app, HP, HP2.
  - now exists (Raise e), w1, t1.
Qed.

Lemma emits_try {A} (m : M E A) (h : exn -> M E A) :
  emits P m -> (forall e, emits P (h e)) -> emits P (try_except m h).
Proof.
  intros Hm Hh w. destruct (Hm w) as (r & w1 & t1 & Hrun & Ht & HP).
  unfold try_except. rewrite Hrun. destruct r as [a|e].
  - now exists (Ok a), w1, t1.
  - destruct (Hh e w1) as (r2 & w2 & t2 & Hrun2 & Ht2 & HP2).
    exists r2, w2, (t1 ++ t2). split; [exact Hrun2|]. split.
    + now rewrite Ht2, Ht, app_assoc.
    + now rewrite forallb_app, HP, HP2.
Qed.

Lemma emits_for {A} (xs : list A) (body : A -> M E unit) :
  (forall x, emits P (body x)) -> emits P (for_ xs body).
Proof.
  intros H. induction xs as [|x xs IH]; simpl.
  - apply emits_ret.
  - apply emits_bind; [apply H | intros _; exact IH].
Qed.

Lemma emits_for_fold {A V} (xs : list A) (body : V -> A -> M E V) :
  (forall v x, emits P (body v x)) ->
  forall v, emits P (for_fold xs v body).
Proof.
  intros H. induction xs as [|x xs IH]; intros v; simpl.
  - apply emits_ret.
  - apply emits_bind; [apply H | intros v'; apply IH].
Qed.

End Emits.

Section Returns.

Variable E : env.
Variable P : event E -> bool.

Lemma returns_print (line : string) :
  P (EvPrint line) = true -> returns P (print E line).
Proof.
  intros H w. eexists tt, _, [EvPrint line].
  split; [reflexivity|]. split; [reflexivity|]. simpl. now rewrite H.
Qed.

Lemma returns_try {A} (m : M E A) (h : exn -> M E A) :
  emits P m -> (forall e, returns P (h e)) -> returns P (try_except m h).
Proof.
  intros Hm Hh w. destruct (Hm w) as (r & w1 & t1 & Hrun & Ht & HP).
  unfold try_except. rewrite Hrun. destruct r as [a|e].
  - now exists a, w1, t1.
  - destruct (Hh e w1) as (a & w2 & t2 & Hrun2 & Ht2 & HP2).
    exists a, w2, (t1 ++ t2). split; [exact Hrun2|]. split.
    + now rewrite Ht2, Ht, app_assoc.
    + now rewrite forallb_app, HP, HP2.
Qed.

Lemma try_bind_head {A B} (m : M E A) (k : A -> M E B) (h : exn -> M E B)
      (w : world E) :
  try_except (bind m k) h w
  = match m w with
    | (Ok a, w1) => try_except (k a) h w1
    | (Raise e, w1) => h e w1
    end.
Proof. unfold try_except, bind. now destruct (m w) as [[a|e] w1]. Qed.

End Returns.

(* ------------------------------------------------------------------ *)
(** ** The stages of resize_images_in_folder *)
(* ------------------------------------------------------------------ *)

Section Stages.

Variable E : env.
Variable folder_path : string.
Variable scale_factor : PyFloat.float.

Lemma delete_thumb_files_emits :
  emits cleanup_ev (delete_thumb_files E folder_path).
Proof.
  unfold delete_thumb_files. apply emits_try.
  - apply emits_bind; [apply emits_call; reflexivity|].
    intros names. apply emits_for. intros filename.
    destruct (PyStr.contains "_thumb" filename); [|apply emits_ret].
    apply emits_bind; [apply emits_call_; reflexivity|].
    intros _. now apply emits_print.
  - intros e. now apply emits_print.
Qed.

Lemma catalog_entry_emits (cat : catalog) (filename : string) :
  emits catalog_ev (catalog_entry E folder_path cat filename).
Proof.
  unfold catalog_entry. apply emits_try.
  - apply emits_bind.
    + destruct (negb _); [apply emits_call_; reflexivity | apply emits_ret].
    + intros _. apply emits_bind; [apply emits_lift|].
      intros piece. simpl. destruct (dict_mem _ cat); apply emits_ret.
  - intros e. apply emits_bind; [now apply emits_print|].
    intros _. apply emits_ret.
Qed.

Lemma with_open_w_emits {A} (P : event E -> bool) (p : path) (body : M E A) :
  (forall r, P (EvOpenW p r) = true) ->
  (forall r, P (EvClose p r) = true) ->
  emits P body -> emits P (with_open_w E p body).
Proof.
  intros Hopen Hclose Hbody. unfold with_open_w.
  apply emits_bind; [apply emits_call_; exact Hopen|].
  intros _ w. destruct (Hbody w) as (r & w1 & t1 & Hrun & Ht & HP).
  rewrite Hrun.
  assert (Hc : emits P (f_close E p)) by (apply emits_call_; exact Hclose).
  destruct r as [a|e].
  - destruct (emits_bind E P (f_close E p) (fun _ => ret a) Hc
                (fun _ => emits_ret E P a) w1)
      as (r2 & w2 & t2 & Hrun2 & Ht2 & HP2).
    exists r2, w2, (t1 ++ t2). split; [exact Hrun2|]. split.
    + now rewrite Ht2, Ht, app_assoc.
    + now rewrite forallb_app, HP, HP2.
  - destruct (emits_bind E P (B := A) (f_close E p)
                (fun _ => lift (Raise e)) Hc
                (fun _ => emits_lift E P (Raise e)) w1)
      as (r2 & w2 & t2 & Hrun2 & Ht2 & HP2).
    exists r2, w2, (t1 ++ t2). split; [exact Hrun2|]. split.
    + now rewrite Ht2, Ht, app_assoc.
    + now rewrite forallb_app, HP, HP2.
Qed.

Lemma manifest_path_eqb :
  path_eqb (manifest_path folder_path) (manifest_path folder_path) = true.
Proof. unfold path_eqb. now rewrite !String.eqb_refl. Qed.

Lemma write_image_list_emits (cat : catalog) :
  emits (manifest_ev folder_path) (write_image_list E folder_path cat).
Proof.
  unfold write_image_list. fold (manifest_path folder_path).
  pose proof manifest_path_eqb as Hp.
  apply emits_try.
  - apply with_open_w_emits; try (intros r; exact Hp).
    apply emits_for. intros [format files].
    apply emits_bind; [apply emits_call_; intros r; exact Hp|].
    intros _. apply emits_bind.
    + apply emits_for. intros file. apply emits_call_. intros r. exact Hp.
    + intros _. apply emits_call_. intros r. exact Hp.
  - intros e. now apply emits_print.
Qed.

Lemma frames_loop_emits (reader : list (result (ndarray E))) :
  forall acc, emits is_print (frames_loop E reader scale_factor acc).
Proof.
  induction reader as [|item rest IH]; intros acc; simpl.
  - apply emits_ret.
  - apply emits_bind; [apply emits_lift|]. intros frame.
    apply emits_bind; [|intros frames; apply IH].
    apply emits_try.
    + apply emits_bind; [apply emits_lift | intros i; apply emits_ret].
    + intros e. apply emits_bind; [now apply emits_print|].
      intros _. apply emits_ret.
Qed.

Lemma emits_weaken {A} (P Q : event E -> bool) (m : M E A) :
  (forall ev, P ev = true -> Q ev = true) -> emits P m -> emits Q m.
Proof.
  intros HPQ Hm w. destruct (Hm w) as (r & w1 & t & Hrun & Ht & HP).
  exists r, w1, t. split; [exact Hrun|]. split; [exact Ht|].
  rewrite forallb_forall in *. intros ev Hin. apply HPQ, HP, Hin.
Qed.

End Stages.

Section ThumbnailPass.

Variable E : env.
Variable folder_path : string.
Variable scale_factor : PyFloat.float.

Lemma print_is_tail (filename : string) (ev : event E) :
  is_print ev = true -> thumb_tail_ev folder_path filename ev = true.
Proof. destruct ev; simpl; try discriminate; reflexivity. Qed.

(** One pass of the body of the loop of lines 114-142 returns, and its
    events are a segment of the entry. *)
Lemma thumbnail_entry_segment (filename : string) (w : world E) :
  exists w' seg,
    thumbnail_entry E folder_path scale_factor filename w = (Ok tt, w')
    /\ trace w' = trace w ++ seg
    /\ thumb_segment folder_path filename seg = true.
Proof.
  unfold thumbnail_entry, thumb_segment, is_image_name.
  destruct (PyStr.endswith_any _ image_suffixes) eqn:Himg.
  2: { exists w, []. rewrite app_nil_r. now repeat split. }
  destruct (PyStr.splitext filename) as [name ext] eqn:Hsp.
  assert (Hname : (name ++ "_thumb" ++ ext)%string = thumb_name filename).
  { unfold thumb_name. now rewrite Hsp. }
  rewrite Hname.
  set (src := os_path_join folder_path filename).
  set (dst := os_path_join folder_path (thumb_name filename)).
  assert (Hsrc : path_eqb src src = true).
  { unfold path_eqb. now rewrite !String.eqb_refl. }
  assert (Hdst : path_eqb dst dst = true).
  { unfold path_eqb. now rewrite !String.eqb_refl. }
  set (tail := thumb_tail_ev (E := E) folder_path filename).
  unfold is_gif_name.
  destruct (PyStr.endswith (PyStr.lower filename) ".gif") eqn:Hgif.
  - assert (Hg : exists w' r rest,
               resize_gif E src dst scale_factor w = (Ok tt, w')
               /\ trace w' = trace w ++ EvGetReader src r :: rest
               /\ forallb tail rest = true).
    { unfold resize_gif. rewrite try_bind_head.
      unfold imageio_get_reader, call_, call.
      destruct (sys_get_reader E src (st w)) as [[reader|e] s1]; simpl.
      - match goal with |- context [try_except ?m ?h ?w1] =>
          destruct (returns_try E tail m h) with (w := w1)
            as ([] & w' & t & Hrun & Ht & HP)
        end.
        + apply emits_bind.
          * eapply emits_weaken; [|apply frames_loop_emits].
            apply print_is_tail.
          * intros frames. apply emits_bind.
            -- apply emits_call_. intros r. unfold tail. simpl.
               unfold is_gif_name. fold dst. now rewrite Hgif, Hdst.
            -- intros _. now apply emits_print.
        + intros e. now apply returns_print.
        + exists w', None, t. split; [exact Hrun|]. split; [|exact HP].
          rewrite Ht. simpl. now rewrite <- app_assoc.
      - eexists _, (Some e), [_]. split; [reflexivity|]. split.
        + simpl. now rewrite <- app_assoc.
        + reflexivity. }
    destruct Hg as (w' & r & rest & Hrun & Ht & HP).
    exists w', (EvGetReader src r :: rest).
    split; [now apply try_ok|]. split; [exact Ht|].
    fold src. now rewrite Hsrc, HP.
  - unfold resize_still. rewrite try_bind_head.
    unfold Image_open, call_, call.
    destruct (sys_Image_open E src (st w)) as [[img|e] s1]; simpl.
    + match goal with |- context [try_except ?m ?h ?w1] =>
        destruct (returns_try E tail m h) with (w := w1)
          as ([] & w' & t & Hrun & Ht & HP)
      end.
      * apply emits_bind; [apply emits_lift|]. intros dims.
        apply emits_bind; [apply emits_lift|]. intros img'.
        apply emits_bind.
        -- apply emits_call_. intros r. unfold tail. simpl.
           unfold is_gif_name. fold dst. now rewrite Hgif, Hdst.
        -- intros _. now apply emits_print.
      * intros e. now apply returns_print.
      * exists w', (EvImageOpen src None :: t).
        split; [exact Hrun|]. split.
        -- rewrite Ht. simpl. now rewrite <- app_assoc.
        -- fold src. now rewrite Hsrc, HP.
    + eexists _, [EvImageOpen src (Some e); _]. split; [reflexivity|]. split.
      * simpl. now rewrite <- app_assoc.
      * fold src. now rewrite Hsrc.
Qed.

(** The loop of lines 114-142 returns, and its events are the segments of
    the entries, in the order of the listing. *)
Lemma thumbnail_loop_segments (names : list string) :
  forall w : world E,
  exists w' segs,
    for_ names (thumbnail_entry E folder_path scale_factor) w = (Ok tt, w')
    /\ trace w' = trace w ++ concat segs
    /\ Forall2 (fun filename seg =>
                  thumb_segment folder_path filename seg = true)
               names segs.
Proof.
  induction names as [|filename rest IH]; intros w.
  - exists w, []. simpl. rewrite app_nil_r. now repeat split.
  - destruct (thumbnail_entry_segment filename w)
      as (w1 & seg & Hrun & Ht & Hseg).
    destruct (IH w1) as (w' & segs & Hrun' & Ht' & Hsegs).
    exists w', (seg :: segs). cbn [for_]. unfold bind. rewrite Hrun.
    split; [exact Hrun'|]. split.
    + rewrite Ht', Ht. simpl. now rewrite app_assoc.
    + now constructor.
Qed.

(** [resize_gif] returns in every case: the [try] of lines 124-142 never
    sees an exception of it. *)
Lemma resize_gif_returns (img_path new_file_path : path) (w : world E) :
  exists w',
    resize_gif E img_path new_file_path scale_factor w = (Ok tt, w').
Proof.
  unfold resize_gif, try_except.
  match goal with |- context [bind ?m ?k w] =>
    destruct (bind m k w) as [[[]|e] w1]
  end.
  - now exists w1.
  - unfold print. now eexists.
Qed.

Lemma gif_name_is_image_name (filename : string) :
  is_gif_name filename = true -> is_image_name filename = true.
Proof.
  unfold is_gif_name, is_image_name, PyStr.endswith_any, image_suffixes.
  intros H. cbn [existsb]. rewrite H. now rewrite !orb_true_r.
Qed.

(** The dispatch of lines 115-142. *)
Lemma thumbnail_entry_dispatch (filename : string) (w : world E) :
  thumbnail_entry E folder_path scale_factor filename w
  = if is_image_name filename then
      if is_gif_name filename
      then resize_gif E (os_path_join folder_path filename)
             (os_path_join folder_path (thumb_name filename)) scale_factor w
      else try_except
             (resize_still E (os_path_join folder_path filename)
                (os_path_join folder_path (thumb_name filename))
                scale_factor)
             (fun e => print E ("Error resizing image " ++ filename ++ ": "
                                ++ exn_str e)) w
    else (Ok tt, w).
Proof.
  unfold thumbnail_entry, is_image_name, is_gif_name.
  destruct (PyStr.endswith_any _ image_suffixes); [|reflexivity].
  destruct (PyStr.splitext filename) as [name ext] eqn:Hsp.
  assert (Hname : (name ++ "_thumb" ++ ext)%string = thumb_name filename).
  { unfold thumb_name. now rewrite Hsp. }
  rewrite Hname.
  destruct (PyStr.endswith (PyStr.lower filename) ".gif"); [|reflexivity].
  destruct (resize_gif_returns (os_path_join folder_path filename)
              (os_path_join folder_path (thumb_name filename)) w)
    as [w' Hr].
  rewrite Hr. now apply try_ok.
Qed.

(** A still image whose four steps return is saved at the thumbnail
    path. *)
Lemma thumbnail_entry_still_saved (filename : string) (w : world E)
      (img resized : image E) (size : Z * Z) (s1 s2 : sys E) :
  let src := os_path_join folder_path filename in
  let dst := os_path_join folder_path (thumb_name filename) in
  is_image_name filename = true ->
  is_gif_name filename = false ->
  sys_Image_open E src (st w) = (Ok img, s1) ->
  new_dimensions (width E img) (height E img) scale_factor = Ok size ->
  Image_resize E img size None = Ok resized ->
  sys_Image_save E resized dst s1 = (Ok tt, s2) ->
  thumbnail_entry E folder_path scale_factor filename w
  = (Ok tt,
     mkWorld s2
       (trace w ++
        [EvImageOpen src None;
         EvImageSave resized dst None;
         EvPrint ("Resized and saved: " ++ path_str dst)])).
Proof.
  intros src dst Himg Hgif Hopen Hsize Hres Hsave.
  rewrite thumbnail_entry_dispatch, Himg, Hgif. fold src dst.
  unfold resize_still, try_except, bind, Image_open, Image_save, call_, call,
    lift, print.
  rewrite Hopen. simpl. rewrite Hsize. simpl. rewrite Hres. simpl.
  rewrite Hsave. simpl. repeat (rewrite <- app_assoc; simpl). reflexivity.
Qed.

(** A gif whose reader yields its frames and whose saving returns is saved
    at the thumbnail path, with the frames that survived. *)
Lemma thumbnail_entry_gif_saved (filename : string) (w : world E)
      (frames : list (ndarray E)) (s1 s2 : sys E) :
  let src := os_path_join folder_path filename in
  let dst := os_path_join folder_path (thumb_name filename) in
  is_gif_name filename = true ->
  sys_get_reader E src (st w) = (Ok (map Ok frames), s1) ->
  sys_mimsave E dst (surviving_frames E scale_factor frames) PyFloat.f0_1 s1
  = (Ok tt, s2) ->
  thumbnail_entry E folder_path scale_factor filename w
  = (Ok tt,
     mkWorld s2
       (trace w ++ EvGetReader src None
        :: dropped_frames_log E scale_factor frames
        ++ [EvMimsave dst (surviving_frames E scale_factor frames)
              PyFloat.f0_1 None;
            EvPrint ("Resized and saved GIF: " ++ path_str dst)])).
Proof.
  intros src dst Hgif Hread Hsave.
  rewrite thumbnail_entry_dispatch, (gif_name_is_image_name _ Hgif), Hgif.
  exact (resize_gif_run E scale_factor _ _ _ _ _ _ _ Hread Hsave).
Qed.

End ThumbnailPass.

(* ------------------------------------------------------------------ *)
(** ** The name of a thumbnail *)
(* ------------------------------------------------------------------ *)

Section Splitext.

Lemma string_length_app (a b : string) :
  String.length (a ++ b) = String.length a + String.length b.
Proof. induction a as [|c a IH]; simpl; [reflexivity | now rewrite IH]. Qed.

Lemma substring_all (b : string) : substring 0 (String.length b) b = b.
Proof. induction b as [|c b IH]; simpl; [reflexivity | now rewrite IH]. Qed.

Lemma substring_prefix (a b : string) :
  substring 0 (String.length a) (a ++ b) = a.
Proof.
  induction a as [|c a IH]; simpl; [now destruct b | now rewrite IH].
Qed.

Lemma substring_drop (a b : string) (n : nat) :
  substring (String.length a) n (a ++ b) = substring 0 n b.
Proof. induction a as [|c a IH]; simpl; [reflexivity | exact IH]. Qed.

Lemma rfind_none (c : ascii) (s : string) :
  has_char c s = false -> PyStr.rfind c s = None.
Proof.
  induction s as [|a rest IH]; simpl; [reflexivity|].
  intros H. apply orb_false_iff in H. destruct H as [Ha Hrest].
  now rewrite (IH Hrest), Ha.
Qed.

Lemma rfind_last (c : ascii) (stem ext : string) :
  has_char c ext = false ->
  PyStr.rfind c (stem ++ String c ext) = Some (String.length stem).
Proof.
  intros Hext. induction stem as [|a stem IH]; simpl.
  - now rewrite (rfind_none c ext Hext), Ascii.eqb_refl.
  - now rewrite IH.
Qed.

(** A name [stem.ext] whose stem is not made of dots only splits at its
    last dot. *)
Lemma splitext_last_dot (stem ext : string) :
  has_char "." ext = false -> PyStr.all_char "." stem = false ->
  PyStr.splitext (stem ++ String "." ext) = (stem, String "." ext).
Proof.
  intros Hext Hstem. unfold PyStr.splitext.
  rewrite (rfind_last "." stem ext Hext), substring_prefix, Hstem.
  rewrite substring_drop, string_length_app, Nat.add_comm, Nat.add_sub.
  now rewrite substring_all.
Qed.

(** A name whose last dot follows nothing but dots has no extension. *)
Lemma splitext_leading_dots (stem ext : string) :
  has_char "." ext = false -> PyStr.all_char "." stem = true ->
  PyStr.splitext (stem ++ String "." ext)
  = ((stem ++ String "." ext)%string, EmptyString).
Proof.
  intros Hext Hstem. unfold PyStr.splitext.
  now rewrite (rfind_last "." stem ext Hext), substring_prefix, Hstem.
Qed.

Lemma thumb_name_last_dot (stem ext : string) :
  has_char "." ext = false -> PyStr.all_char "." stem = false ->
  thumb_name (stem ++ String "." ext)
  = (stem ++ "_thumb" ++ String "." ext)%string.
Proof.
  intros Hext Hstem. unfold thumb_name.
  now rewrite (splitext_last_dot stem ext Hext Hstem).
Qed.

End Splitext.

(* ------------------------------------------------------------------ *)
(** ** The orchestrator *)
(* ------------------------------------------------------------------ *)

(** C9: a run of [resize_images_in_folder] that returns is made of these
    steps, each starting where the one before ended: the cleanup
    [delete_thumb_files]; the listing of the folder; the loop of lines
    86-100 over this listing, from the empty table; the writing of the
    manifest from the table of the loop; a second listing; and the loop of
    lines 114-142 over this second listing, with the scale factor of the
    call.  In this last loop an entry whose lower-cased name does not end in
    .png, .jpg, .jpeg or .gif is passed over; one whose name ends in .gif
    goes to [resize_gif] and any other to the branch of the still images,
    in both cases with the path of the entry as source and
    [<name-without-ext>_thumb<ext>] in the same folder as target, which is
    where [imageio.mimsave] or [Image.save] writes when the steps before it
    return.  The trace shows the stages in this order.  The default scale
    factor is 0.25. *)
Theorem orchestrator_runs_the_stages_in_order
  (E : env) (folder_path : string) (scale_factor : PyFloat.float)
  (w w' : world E)
  (Hrun : resize_images_in_folder E folder_path scale_factor w
          = (Ok tt, w')) :
  (exists w1 names1 s1 cat w2 w3 names2 s3,
     delete_thumb_files E folder_path w = (Ok tt, w1)
     /\ sys_listdir E folder_path (st w1) = (Ok names1, s1)
     /\ for_fold names1 image_formats0 (catalog_entry E folder_path)
          (mkWorld s1 (trace w1 ++ [EvListdir folder_path (Ok names1)]))
        = (Ok cat, w2)
     /\ write_image_list E folder_path cat w2 = (Ok tt, w3)
     /\ sys_listdir E folder_path (st w3) = (Ok names2, s3)
     /\ for_ names2 (thumbnail_entry E folder_path scale_factor)
          (mkWorld s3 (trace w3 ++ [EvListdir folder_path (Ok names2)]))
        = (Ok tt, w')
     /\ exists t1 t2 t3 segs,
          trace w1 = trace w ++ t1
          /\ trace w2 = trace w1 ++ EvListdir folder_path (Ok names1) :: t2
          /\ trace w3 = trace w2 ++ t3
          /\ trace w'
             = trace w ++ t1 ++ EvListdir folder_path (Ok names1)
               :: t2 ++ t3 ++ EvListdir folder_path (Ok names2)
               :: concat segs
          /\ forallb cleanup_ev t1 = true
          /\ forallb catalog_ev t2 = true
          /\ forallb (manifest_ev folder_path) t3 = true
          /\ Forall2 (fun filename seg =>
                        thumb_segment folder_path filename seg = true)
                     names2 segs)
  /\ (forall (filename : string) (v : world E),
        let src := os_path_join folder_path filename in
        let dst := os_path_join folder_path (thumb_name filename) in
        thumbnail_entry E folder_path scale_factor filename v
        = if is_image_name filename then
            if is_gif_name filename
            then resize_gif E src dst scale_factor v
            else try_except (resize_still E src dst scale_factor)
                   (fun e => print E ("Error resizing image " ++ filename
                                      ++ ": " ++ exn_str e)) v
          else (Ok tt, v))
  /\ (forall (filename : string) (v : world E)
             (frames : list (ndarray E)) (sa sb : sys E),
        let src := os_path_join folder_path filename in
        let dst := os_path_join folder_path (thumb_name filename) in
        is_gif_name filename = true ->
        sys_get_reader E src (st v) = (Ok (map Ok frames), sa) ->
        sys_mimsave E dst (surviving_frames E scale_factor frames)
                    PyFloat.f0_1 sa = (Ok tt, sb) ->
        thumbnail_entry E folder_path scale_factor filename v
        = (Ok tt,
           mkWorld sb
             (trace v ++ EvGetReader src None
              :: dropped_frames_log E scale_factor frames
              ++ [EvMimsave dst (surviving_frames E scale_factor frames)
                    PyFloat.f0_1 None;
                  EvPrint ("Resized and saved GIF: " ++ path_str dst)])))
  /\ (forall (filename : string) (v : world E) (img resized : image E)
             (size : Z * Z) (sa sb : sys E),
        let src := os_path_join folder_path filename in
        let dst := os_path_join folder_path (thumb_name filename) in
        is_image_name filename = true ->
        is_gif_name filename = false ->
        sys_Image_open E src (st v) = (Ok img, sa) ->
        new_dimensions (width E img) (height E img) scale_factor
        = Ok size ->
        Image_resize E img size None = Ok resized ->
        sys_Image_save E resized dst sa = (Ok tt, sb) ->
        thumbnail_entry E folder_path scale_factor filename v
        = (Ok tt,
           mkWorld sb
             (trace v ++
              [EvImageOpen src None;
               EvImageSave resized dst None;
               EvPrint ("Resized and saved: " ++ path_str dst)])))
  /\ (forall stem ext,
        has_char "." ext = false -> PyStr.all_char "." stem = false ->
        thumb_name (stem ++ String "." ext)
        = (stem ++ "_thumb" ++ String "." ext)%string)
  /\ (forall v, resize_images_in_folder_default E folder_path v
                = resize_images_in_folder E folder_path PyFloat.f0_25 v)
  /\ option_map Qred (PyFloat.value PyFloat.f0_25) = Some (1 # 4)%Q.
Proof.
  split; [|split; [|split; [|split; [|split; [|split]]]]].
  2: { intros filename v. apply thumbnail_entry_dispatch. }
  2: { intros filename v frames sa sb.
       apply thumbnail_entry_gif_saved. }
  2: { intros filename v img resized size sa sb.
       apply thumbnail_entry_still_saved. }
  2: exact thumb_name_last_dot.
  2: reflexivity.
  2: reflexivity.
  unfold resize_images_in_folder in Hrun. unfold bind in Hrun.
  destruct (delete_thumb_files_emits E folder_path w)
    as (r1 & w1 & t1 & H1 & Ht1 & HP1).
  rewrite H1 in Hrun. destruct r1 as [[]|e]; [|discriminate].
  unfold os_listdir at 1, call in Hrun.
  destruct (sys_listdir E folder_path (st w1)) as [[names1|e] s1] eqn:Hl1;
    [|discriminate].
  match type of Hrun with context [for_fold names1 _ _ ?wa] =>
    destruct (emits_for_fold E catalog_ev names1 (catalog_entry E folder_path)
                (catalog_entry_emits E folder_path) image_formats0 wa)
      as (r2 & w2 & t2 & H2 & Ht2 & HP2)
  end.
  rewrite H2 in Hrun. destruct r2 as [cat|e]; [|discriminate].
  destruct (write_image_list_emits E folder_path cat w2)
    as (r3 & w3 & t3 & H3 & Ht3 & HP3).
  rewrite H3 in Hrun. destruct r3 as [[]|e]; [|discriminate].
  unfold os_listdir, call in Hrun.
  destruct (sys_listdir E folder_path (st w3)) as [[names2|e] s3] eqn:Hl3;
    [|discriminate].
  match type of Hrun with context [for_ names2 _ ?wb] =>
    destruct (thumbnail_loop_segments E folder_path scale_factor names2 wb)
      as (w4 & segs & H4 & Ht4 & Hsegs)
  end.
  rewrite H4 in Hrun. inversion Hrun. subst w4. clear Hrun.
  simpl in Ht2, Ht4.
  exists w1, names1, s1, cat, w2, w3, names2, s3.
  repeat (split; [assumption|]).
  exists t1, t2, t3, segs.
  split; [exact Ht1|]. split.
  { rewrite Ht2, <- app_assoc. reflexivity. }
  split; [exact Ht3|]. split.
  { rewrite Ht4, Ht3, Ht2, Ht1.
    repeat (rewrite <- app_assoc; simpl). reflexivity. }
  repeat (split; [assumption|]). exact Hsegs.
Qed.

Lemma orchestrator_runs_the_stages_in_order_witness :
  let w := Sim.start Sim.fs_photos in
  let w' := snd (resize_images_in_folder Sim.E Sim.folder PyFloat.f0_5 w) in
  (exists w1 names1 s1 cat w2 w3 names2 s3,
     delete_thumb_files Sim.E Sim.folder w = (Ok tt, w1)
     /\ sys_listdir Sim.E Sim.folder (st w1) = (Ok names1, s1)
     /\ for_fold names1 image_formats0 (catalog_entry Sim.E Sim.folder)
          (mkWorld s1 (trace w1 ++ [EvListdir Sim.folder (Ok names1)]))
        = (Ok cat, w2)
     /\ write_image_list Sim.E Sim.folder cat w2 = (Ok tt, w3)
     /\ sys_listdir Sim.E Sim.folder (st w3) = (Ok names2, s3)
     /\ for_ names2 (thumbnail_entry Sim.E Sim.folder PyFloat.f0_5)
          (mkWorld s3 (trace w3 ++ [EvListdir Sim.folder (Ok names2)]))
        = (Ok tt, w')
     /\ exists t1 t2 t3 segs,
          trace w1 = trace w ++ t1
          /\ trace w2 = trace w1 ++ EvListdir Sim.folder (Ok names1) :: t2
          /\ trace w3 = trace w2 ++ t3
          /\ trace w'
             = trace w ++ t1 ++ EvListdir Sim.folder (Ok names1)
               :: t2 ++ t3 ++ EvListdir Sim.folder (Ok names2)
               :: concat segs
          /\ forallb cleanup_ev t1 = true
          /\ forallb catalog_ev t2 = true
          /\ forallb (manifest_ev Sim.folder) t3 = true
          /\ Forall2 (fun filename seg =>
                        thumb_segment Sim.folder filename seg = true)
                     names2 segs)
  /\ (forall (filename : string) (v : world Sim.E),
        let src := os_path_join Sim.folder filename in
        let dst := os_path_join Sim.folder (thumb_name filename) in
        thumbnail_entry Sim.E Sim.folder PyFloat.f0_5 filename v
        = if is_image_name filename then
            if is_gif_name filename
            then resize_gif Sim.E src dst PyFloat.f0_5 v
            else try_except (resize_still Sim.E src dst PyFloat.f0_5)
                   (fun e => print Sim.E ("Error resizing image " ++ filename
                                      ++ ": " ++ exn_str e)) v
          else (Ok tt, v))
  /\ (forall (filename : string) (v : world Sim.E)
             (frames : list (ndarray Sim.E)) (sa sb : sys Sim.E),
        let src := os_path_join Sim.folder filename in
        let dst := os_path_join Sim.folder (thumb_name filename) in
        is_gif_name filename = true ->
        sys_get_reader Sim.E src (st v) = (Ok (map Ok frames), sa) ->
        sys_mimsave Sim.E dst (surviving_frames Sim.E PyFloat.f0_5 frames)
                    PyFloat.f0_1 sa = (Ok tt, sb) ->
        thumbnail_entry Sim.E Sim.folder PyFloat.f0_5 filename v
        = (Ok tt,
           mkWorld sb
             (trace v ++ EvGetReader src None
              :: dropped_frames_log Sim.E PyFloat.f0_5 frames
              ++ [EvMimsave dst (surviving_frames Sim.E PyFloat.f0_5 frames)
                    PyFloat.f0_1 None;
                  EvPrint ("Resized and saved GIF: " ++ path_str dst)])))
  /\ (forall (filename : string) (v : world Sim.E) (img resized : image Sim.E)
             (size : Z * Z) (sa sb : sys Sim.E),
        let src := os_path_join Sim.folder filename in
        let dst := os_path_join Sim.folder (thumb_name filename) in
        is_image_name filename = true ->
        is_gif_name filename = false ->
        sys_Image_open Sim.E src (st v) = (Ok img, sa) ->
        new_dimensions (width Sim.E img) (height Sim.E img) PyFloat.f0_5
        = Ok size ->
        Image_resize Sim.E img size None = Ok resized ->
        sys_Image_save Sim.E resized dst sa = (Ok tt, sb) ->
        thumbnail_entry Sim.E Sim.folder PyFloat.f0_5 filename v
        = (Ok tt,
           mkWorld sb
             (trace v ++
              [EvImageOpen src None;
               EvImageSave resized dst None;
               EvPrint ("Resized and saved: " ++ path_str dst)])))
  /\ (forall stem ext,
        has_char "." ext = false -> PyStr.all_char "." stem = false ->
        thumb_name (stem ++ String "." ext)
        = (stem ++ "_thumb" ++ String "." ext)%string)
  /\ (forall v, resize_images_in_folder_default Sim.E Sim.folder v
                = resize_images_in_folder Sim.E Sim.folder PyFloat.f0_25 v)
  /\ option_map Qred (PyFloat.value PyFloat.f0_25) = Some (1 # 4)%Q.
Proof.
  intros w w'.
  apply (orchestrator_runs_the_stages_in_order Sim.E Sim.folder PyFloat.f0_5
           w w').
  reflexivity.
Defined.

(* ------------------------------------------------------------------ *)
(** ** When a run raises *)
(* ------------------------------------------------------------------ *)

Section Raises.

Variable E : env.
Variable folder_path : string.
Variable scale_factor : PyFloat.float.

Lemma delete_thumb_files_returns :
  returns cleanup_ev (delete_thumb_files E folder_path).
Proof.
  unfold delete_thumb_files. apply returns_try.
  - apply emits_bind; [apply emits_call; reflexivity|].
    intros names. apply emits_for. intros filename.
    destruct (PyStr.contains "_thumb" filename); [|apply emits_ret].
    apply emits_bind; [apply emits_call_; reflexivity|].
    intros _. now apply emits_print.
  - intros e. now apply returns_print.
Qed.

(** In any environment, the only exceptions that leave
    [resize_images_in_folder] are those of its own two listings: the last
    event of a run that raises is the listing that raised. *)
Lemma resize_images_in_folder_raises_only_from_listing
      (w w' : world E) (e : exn) :
  resize_images_in_folder E folder_path scale_factor w = (Raise e, w') ->
  exists t, trace w' = trace w ++ t ++ [EvListdir folder_path (Raise e)].
Proof.
  intros Hrun. unfold resize_images_in_folder in Hrun. unfold bind in Hrun.
  destruct (delete_thumb_files_returns w) as ([] & w1 & t1 & H1 & Ht1 & _).
  rewrite H1 in Hrun. unfold os_listdir at 1, call in Hrun.
  destruct (sys_listdir E folder_path (st w1)) as [[names1|e1] s1].
  - match type of Hrun with context [for_fold names1 _ _ ?wa] =>
      destruct (catalog_loop_run E folder_path names1 image_formats0 wa)
        as (cat & w2 & t2 & H2 & Ht2 & _)
    end.
    rewrite H2 in Hrun.
    destruct (write_image_list_run E folder_path cat w2)
      as (w3 & t3 & H3 & Ht3 & _).
    rewrite H3 in Hrun. unfold os_listdir, call in Hrun.
    destruct (sys_listdir E folder_path (st w3)) as [[names2|e2] s3].
    + match type of Hrun with context [for_ names2 _ ?wb] =>
        destruct (thumbnail_loop_segments E folder_path scale_factor
                    names2 wb) as (w4 & segs & H4 & _)
      end.
      rewrite H4 in Hrun. discriminate.
    + inversion Hrun. subst. simpl.
      exists (t1 ++ EvListdir folder_path (Ok names1) :: t2 ++ t3).
      rewrite Ht3, Ht2. simpl. rewrite Ht1.
      repeat (rewrite <- app_assoc; simpl). reflexivity.
  - inversion Hrun. subst. simpl. exists t1. now rewrite Ht1, <- app_assoc.
Qed.

(** And a listing that raises does leave it: here the one of line 86. *)
Lemma resize_images_in_folder_listing_raises
      (w w1 : world E) (s1 : sys E) (e : exn) :
  delete_thumb_files E folder_path w = (Ok tt, w1) ->
  sys_listdir E folder_path (st w1) = (Raise e, s1) ->
  resize_images_in_folder E folder_path scale_factor w
  = (Raise e,
     mkWorld s1 (trace w1 ++ [EvListdir folder_path (Raise e)])).
Proof.
  intros Hdel Hlist. unfold resize_images_in_folder.
  rewrite (bind_ok E _ _ _ _ _ Hdel). unfold os_listdir.
  now rewrite (bind_raise E _ _ _ _ _ (call_run E _ _ w1 _ _ Hlist)).
Qed.

End Raises.

(* ------------------------------------------------------------------ *)
(** ** The float literals *)
(* ------------------------------------------------------------------ *)

(** [f0_1] is the binary64 number nearest to one tenth: it is within half a
    unit in the last place, 2^-57. *)
Lemma f0_1_is_a_tenth :
  exists v, PyFloat.value PyFloat.f0_1 = Some v
            /\ ((1 # 10) - (1 # 2 ^ 57) <= v)%Q
            /\ (v <= (1 # 10) + (1 # 2 ^ 57))%Q.
Proof.
  eexists. split; [reflexivity|]. split; vm_compute; discriminate.
Qed.

(** The product is rounded before [int] is applied, as in Python, where
    [int(10 * 0.7)] is 7 although the binary64 number written 0.7 is below
    seven tenths. *)
Lemma scaled_rounds_the_product :
  scaled 10 PyFloat.f0_7 = Ok 7%Z
  /\ floor_scaled 10 PyFloat.f0_7 = Some 7%Z
  /\ option_map (fun v => Qfloor (inject_Z 10 * v))
                (PyFloat.value PyFloat.f0_7) = Some 6%Z.
Proof. repeat split; reflexivity. Qed.

(* ================================================================== *)
(** * Further properties of the four functions and of the script *)
(* ================================================================== *)

(* ------------------------------------------------------------------ *)
(** ** clean_filename and the renaming *)
(* ------------------------------------------------------------------ *)

Section Cleaning.

Lemma has_char_chars (c : ascii) (s : string) :
  has_char c s = existsb (fun a => Ascii.eqb a c) (PyStr.chars s).
Proof. induction s as [|a rest IH]; simpl; [reflexivity | now rewrite IH]. Qed.

Lemma needs_cleaning_kept (s : string) :
  needs_cleaning s = negb (forallb kept (PyStr.chars s)).
Proof.
  unfold needs_cleaning. induction s as [|a rest IH]; [reflexivity|].
  simpl. unfold kept at 1.
  destruct (Ascii.eqb a " "), (Ascii.eqb a "("), (Ascii.eqb a ")"); simpl;
    try reflexivity; rewrite ?orb_true_r; try reflexivity.
  exact IH.
Qed.

Lemma filter_id_iff {A} (p : A -> bool) (l : list A) :
  filter p l = l <-> forallb p l = true.
Proof.
  induction l as [|x l IH]; simpl; [tauto|].
  destruct (p x) eqn:Hp; simpl.
  - rewrite <- IH. split; [intros H; now injection H | intros ->; reflexivity].
  - split; [|discriminate]. intros H.
    assert (Hlen : length (filter p l) = S (length l)) by now rewrite H.
    pose proof (filter_length_le p l). lia.
Qed.

Lemma clean_filename_fixed (s : string) :
  String.eqb s (clean_filename s) = negb (needs_cleaning s).
Proof.
  rewrite needs_cleaning_kept, negb_involutive.
  destruct (forallb kept (PyStr.chars s)) eqn:Hk.
  - apply String.eqb_eq. symmetry. apply chars_inj.
    rewrite clean_filename_chars. now apply filter_id_iff.
  - apply String.eqb_neq. intros Heq.
    assert (H : filter kept (PyStr.chars s) = PyStr.chars s).
    { rewrite <- clean_filename_chars. now rewrite <- Heq. }
    apply filter_id_iff in H. congruence.
Qed.

End Cleaning.

(** X1: an entry is renamed exactly when its name holds a space or a
    parenthesis.  A name without them costs no call and is cataloged as it
    is; otherwise one renaming to the cleaned name is attempted, and the
    entry is cataloged under the cleaned name if the renaming returns, and
    logged and left out of the catalog if it raises. *)
Theorem catalog_entry_renames_what_needs_cleaning
  (E : env) (folder_path : string) (image_formats : catalog)
  (filename : string) (w : world E) :
  let cleaned := clean_filename filename in
  let old_file_path := os_path_join folder_path filename in
  let new_file_path := os_path_join folder_path cleaned in
  (cleaned = filename <-> needs_cleaning filename = false)
  /\ catalog_entry E folder_path image_formats filename w
     = if needs_cleaning filename
       then match sys_rename E old_file_path new_file_path (st w) with
            | (Ok _, s1) =>
                (Ok (catalog_add image_formats cleaned),
                 mkWorld s1
                   (trace w ++ [EvRename old_file_path new_file_path None]))
            | (Raise e, s1) =>
                (Ok image_formats,
                 mkWorld s1
                   (trace w ++
                    [EvRename old_file_path new_file_path (Some e);
                     EvPrint ("Error processing file " ++ filename ++ ": "
                              ++ exn_str e)]))
            end
       else (Ok (catalog_add image_formats filename), w).
Proof.
  intros cleaned old_file_path new_file_path.
  pose proof (clean_filename_fixed filename) as Hfix. fold cleaned in Hfix.
  split.
  - destruct (needs_cleaning filename); simpl in Hfix.
    + apply String.eqb_neq in Hfix. split; [congruence | discriminate].
    + apply String.eqb_eq in Hfix. split; [reflexivity | congruence].
  - rewrite catalog_entry_run. fold cleaned old_file_path new_file_path.
    rewrite Hfix. destruct (needs_cleaning filename); simpl; [reflexivity|].
    apply String.eqb_eq in Hfix. now rewrite <- Hfix.
Qed.

Section CleaningAlgebra.

Lemma replace_app (old : ascii) (a b : string) :
  PyStr.replace old EmptyString (a ++ b)
  = (PyStr.replace old EmptyString a ++ PyStr.replace old EmptyString b)%string.
Proof.
  induction a as [|c a IH]; simpl; [reflexivity|].
  destruct (Ascii.eqb c old); simpl; now rewrite IH.
Qed.

Lemma replace_length (old : ascii) (s : string) :
  String.length (PyStr.replace old EmptyString s) <= String.length s.
Proof.
  induction s as [|c s IH]; simpl; [lia|].
  destruct (Ascii.eqb c old); simpl; lia.
Qed.

Lemma after_last_replace (sep old : ascii) (s : string) :
  Ascii.eqb sep old = false ->
  after_last sep (PyStr.replace old EmptyString s)
  = PyStr.replace old EmptyString (after_last sep s).
Proof.
  intros Hsep. induction s as [|c rest IH]; [reflexivity|].
  cbn [after_last PyStr.replace].
  destruct (Ascii.eqb c old) eqn:Hc.
  - simpl. apply Ascii.eqb_eq in Hc. subst c.
    rewrite Ascii.eqb_sym, Hsep.
    destruct (has_char sep rest) eqn:Hrest; [exact IH|].
    cbn [PyStr.replace]. rewrite Ascii.eqb_refl. simpl.
    apply after_last_no_sep. now rewrite has_char_replace.
  - cbn [after_last]. rewrite has_char_replace by exact Hsep.
    destruct (has_char sep rest); [exact IH|].
    destruct (Ascii.eqb c sep); [reflexivity|].
    cbn [PyStr.replace]. now rewrite Hc.
Qed.

End CleaningAlgebra.

(** X2: cleaning works character by character: the cleaning of a
    concatenation is the concatenation of the cleanings, the result is
    never longer than the name, and a name keeps its dots, so that the part
    after the last dot of the cleaned name is the cleaning of the part
    after the last dot of the name. *)
Theorem clean_filename_is_local (a b : string) :
  clean_filename (a ++ b) = (clean_filename a ++ clean_filename b)%string
  /\ String.length (clean_filename a) <= String.length a
  /\ has_char "." (clean_filename a) = has_char "." a
  /\ after_last "." (clean_filename a) = clean_filename (after_last "." a)
  /\ extension (clean_filename a)
     = PyStr.lower (clean_filename (after_last "." a)).
Proof.
  assert (Hal : after_last "." (clean_filename a)
                = clean_filename (after_last "." a)).
  { unfold clean_filename. now rewrite !after_last_replace by reflexivity. }
  split; [|split; [|split; [|split]]].
  - unfold clean_filename. now rewrite !replace_app.
  - unfold clean_filename.
    eapply Nat.le_trans; [apply replace_length|].
    eapply Nat.le_trans; [apply replace_length|]. apply replace_length.
  - apply has_dot_clean.
  - exact Hal.
  - unfold extension. now rewrite Hal.
Qed.

(* ------------------------------------------------------------------ *)
(** ** Image names, extensions and thumbnail names *)
(* ------------------------------------------------------------------ *)

Section Names.

Lemma endswith_refl (s : string) : PyStr.endswith s s = true.
Proof. destruct s; cbn [PyStr.endswith]; now rewrite String.eqb_refl. Qed.

Lemma endswith_iff (s suffix : string) :
  PyStr.endswith s suffix = true <-> exists p, s = (p ++ suffix)%string.
Proof.
  split.
  - induction s as [|a rest IH]; cbn [PyStr.endswith]; intros H.
    + rewrite orb_false_r in H. apply String.eqb_eq in H.
      now exists EmptyString.
    + apply orb_true_iff in H. destruct H as [H|H].
      * apply String.eqb_eq in H. now exists EmptyString.
      * destruct (IH H) as [p ->]. now exists (String a p).
  - intros [p ->]. induction p as [|c p IH]; simpl.
    + apply endswith_refl.
    + cbn [PyStr.endswith]. rewrite IH. apply orb_true_r.
Qed.

Lemma after_last_lower (s : string) :
  after_last "." (PyStr.lower s) = PyStr.lower (after_last "." s).
Proof.
  induction s as [|c rest IH]; [reflexivity|].
  cbn [PyStr.lower after_last]. rewrite has_dot_lower, lower_char_dot.
  destruct (has_char "." rest); [exact IH|].
  now destruct (Ascii.eqb c ".").
Qed.

Lemma after_last_decompose (sep : ascii) (s : string) :
  has_char sep s = true ->
  exists p, s = (p ++ String sep (after_last sep s))%string.
Proof.
  induction s as [|c rest IH]; simpl; [discriminate|].
  destruct (has_char sep rest) eqn:Hrest.
  - intros _. destruct (IH eq_refl) as [p Hp].
    exists (String c p). simpl. now rewrite <- Hp.
  - rewrite orb_false_r. intros Hc. apply Ascii.eqb_eq in Hc. subst c.
    rewrite Ascii.eqb_refl. now exists EmptyString.
Qed.

Lemma endswith_dot_suffix (t fmt : string) :
  has_char "." fmt = false ->
  PyStr.endswith t (String "." fmt)
  = has_char "." t && String.eqb (after_last "." t) fmt.
Proof.
  intros Hfmt.
  destruct (PyStr.endswith t (String "." fmt)) eqn:He.
  - apply endswith_iff in He. destruct He as [p ->].
    rewrite has_char_app, after_last_spec by exact Hfmt.
    simpl. now rewrite orb_true_r, String.eqb_refl.
  - destruct (has_char "." t) eqn:Ht; [|reflexivity]. simpl.
    destruct (String.eqb (after_last "." t) fmt) eqn:Hal; [|reflexivity].
    apply String.eqb_eq in Hal.
    destruct (after_last_decompose "." t Ht) as [p Hp]. rewrite Hal in Hp.
    assert (Hyes : PyStr.endswith t (String "." fmt) = true).
    { apply endswith_iff. now exists p. }
    congruence.
Qed.

End Names.

Lemma image_name_tests (s : string) :
  is_image_name s = has_char "." s && dict_mem (extension s) image_formats0
  /\ is_gif_name s = has_char "." s && String.eqb (extension s) "gif".
Proof.
  unfold is_image_name, is_gif_name, PyStr.endswith_any, image_suffixes,
    dict_mem, image_formats0.
  cbn [existsb fst].
  rewrite !endswith_dot_suffix by reflexivity.
  rewrite has_dot_lower, after_last_lower. fold (extension s).
  rewrite !(String.eqb_sym _ (extension s)).
  split; [|reflexivity].
  destruct (has_char "." s); simpl; reflexivity.
Qed.

(** X3: the test of the thumbnail pass (line 115) and the test of the
    cataloguing (lines 96-97) agree on every name that has a dot: a name is
    thumbnailed exactly when it has a dot and its extension, as the
    cataloguing computes it, is a key of the format table; and it goes to
    [resize_gif] exactly when it has a dot and this extension is gif. *)
Theorem image_name_iff_dotted_catalog_extension (s : string) :
  is_image_name s = has_char "." s && dict_mem (extension s) image_formats0
  /\ is_gif_name s = has_char "." s && String.eqb (extension s) "gif".
Proof. exact (image_name_tests s). Qed.

Section ThumbNames.

Lemma prefix_app (pat b : string) : String.prefix pat (pat ++ b) = true.
Proof.
  induction pat as [|c pat IH]; simpl; [now destruct b|].
  destruct (ascii_dec c c) as [_|Hn]; [exact IH | now elim Hn].
Qed.

Lemma contains_prefix (pat s : string) :
  String.prefix pat s = true -> PyStr.contains pat s = true.
Proof. intros H. destruct s; cbn [PyStr.contains]; now rewrite H. Qed.

Lemma contains_app (pat a b : string) :
  PyStr.contains pat (a ++ pat ++ b) = true.
Proof.
  induction a as [|c a IH]; simpl.
  - apply contains_prefix, prefix_app.
  - cbn [PyStr.contains]. rewrite IH. apply orb_true_r.
Qed.

Lemma rfind_some_no_later (c : ascii) (s : string) :
  PyStr.rfind c s = None -> has_char c s = false.
Proof.
  induction s as [|a rest IH]; simpl; [reflexivity|].
  destruct (PyStr.rfind c rest); [discriminate|].
  destruct (Ascii.eqb a c); [discriminate|]. intros _. now apply IH.
Qed.

Lemma rfind_split (c : ascii) (s : string) (i : nat) :
  PyStr.rfind c s = Some i ->
  exists a b, s = (a ++ String c b)%string
              /\ String.length a = i /\ has_char c b = false.
Proof.
  revert i. induction s as [|x rest IH]; simpl; [discriminate|]. intros i.
  destruct (PyStr.rfind c rest) as [j|] eqn:Hr.
  - intros H. injection H as <-.
    destruct (IH j eq_refl) as (a & b & -> & Hlen & Hb).
    exists (String x a), b. simpl. now rewrite Hlen.
  - destruct (Ascii.eqb x c) eqn:Hx; [|discriminate].
    intros H. injection H as <-. apply Ascii.eqb_eq in Hx. subst x.
    exists EmptyString, rest. repeat split.
    now apply rfind_some_no_later.
Qed.

(** [os.path.splitext] cuts a name in two. *)
Lemma splitext_join (p : string) :
  (fst (PyStr.splitext p) ++ snd (PyStr.splitext p))%string = p.
Proof.
  unfold PyStr.splitext.
  destruct (PyStr.rfind "." p) as [i|] eqn:Hr;
    [|simpl; apply string_app_empty].
  destruct (rfind_split "." p i Hr) as (a & b & -> & <- & _).
  rewrite substring_prefix.
  destruct (PyStr.all_char "." a); simpl; [apply string_app_empty|].
  rewrite substring_drop, string_length_app, Nat.add_comm, Nat.add_sub.
  now rewrite substring_all.
Qed.

Lemma thumb_name_length (p : string) :
  String.length (thumb_name p) = String.length p + 6.
Proof.
  unfold thumb_name. rewrite <- (splitext_join p) at 3.
  rewrite !string_length_app. simpl. lia.
Qed.

End ThumbNames.

(** X4: whatever the name of the entry, the name of its thumbnail holds
    [_thumb], so that the cleanup of the next run matches it; it is six
    characters longer than the name of the entry, hence never the entry
    itself; and the two parts that [os.path.splitext] returns, between
    which [_thumb] is put, make up the name. *)
Theorem thumbnail_name_is_marked (filename : string) :
  PyStr.contains "_thumb" (thumb_name filename) = true
  /\ String.length (thumb_name filename) = String.length filename + 6
  /\ thumb_name filename <> filename
  /\ (fst (PyStr.splitext filename) ++ snd (PyStr.splitext filename))%string
     = filename.
Proof.
  split; [|split; [|split]].
  - unfold thumb_name. apply contains_app.
  - apply thumb_name_length.
  - intros H. pose proof (thumb_name_length filename) as Hl.
    rewrite H in Hl. lia.
  - apply splitext_join.
Qed.

Section ThumbKinds.

Lemma lower_app (a b : string) :
  PyStr.lower (a ++ b) = (PyStr.lower a ++ PyStr.lower b)%string.
Proof. induction a as [|c a IH]; simpl; [reflexivity | now rewrite IH]. Qed.

Lemma thumb_name_leading_dots (stem ext : string) :
  has_char "." ext = false -> PyStr.all_char "." stem = true ->
  thumb_name (stem ++ String "." ext)
  = (stem ++ String "." ext ++ "_thumb")%string.
Proof.
  intros Hext Hstem. unfold thumb_name.
  rewrite (splitext_leading_dots stem ext Hext Hstem). simpl.
  now rewrite string_app_assoc.
Qed.

End ThumbKinds.

(** X5: for a name with nothing but dots before its last dot, such as
    [.png] or [..gif], [os.path.splitext] finds no extension: [_thumb] is
    put after the whole name, and the thumbnail name is not an image name
    any more. *)
Theorem thumbnail_of_a_dot_name_loses_its_extension
  (stem ext : string)
  (Hext : has_char "." ext = false)
  (Hstem : PyStr.all_char "." stem = true) :
  thumb_name (stem ++ String "." ext)
  = (stem ++ String "." ext ++ "_thumb")%string
  /\ is_image_name (thumb_name (stem ++ String "." ext)) = false.
Proof.
  pose proof (thumb_name_leading_dots stem ext Hext Hstem) as Hname.
  split; [exact Hname|].
  destruct (image_name_tests (thumb_name (stem ++ String "." ext)))
    as [-> _].
  rewrite Hname. apply andb_false_iff. right.
  assert (Hal : extension (stem ++ String "." ext ++ "_thumb")
                = (PyStr.lower ext ++ "_thumb")%string).
  { unfold extension.
    change (String "." ext ++ "_thumb")%string
      with (String "." (ext ++ "_thumb")).
    rewrite (after_last_spec "." stem (ext ++ "_thumb")).
    - now rewrite lower_app.
    - rewrite has_char_app, Hext. reflexivity. }
  rewrite Hal. unfold dict_mem, image_formats0. cbn [existsb fst].
  assert (Hne : forall k, String.length k < 6 ->
                  String.eqb k (PyStr.lower ext ++ "_thumb") = false).
  { intros k Hk. apply String.eqb_neq. intros ->.
    rewrite string_length_app in Hk. simpl in Hk. lia. }
  rewrite !Hne by (simpl; lia). reflexivity.
Qed.

Lemma thumbnail_of_a_dot_name_loses_its_extension_witness :
  thumb_name ".png" = ".png_thumb"
  /\ is_image_name (thumb_name ".png") = false.
Proof.
  apply (thumbnail_of_a_dot_name_loses_its_extension EmptyString "png");
    reflexivity.
Defined.

(** X6: for a name [stem.ext] whose stem is not made of dots only, the
    thumbnail [stem_thumb.ext] has the extension of the entry: it is an
    image name, and a gif name, exactly when the entry is.  A thumbnail
    left in the folder would thus be thumbnailed again by a later pass. *)
Theorem thumbnail_keeps_the_kind_of_its_source
  (stem ext : string)
  (Hext : has_char "." ext = false)
  (Hstem : PyStr.all_char "." stem = false) :
  extension (thumb_name (stem ++ String "." ext))
  = extension (stem ++ String "." ext)
  /\ is_image_name (thumb_name (stem ++ String "." ext))
     = is_image_name (stem ++ String "." ext)
  /\ is_gif_name (thumb_name (stem ++ String "." ext))
     = is_gif_name (stem ++ String "." ext).
Proof.
  rewrite (thumb_name_last_dot stem ext Hext Hstem).
  assert (Hsame : extension (stem ++ "_thumb" ++ String "." ext)
                  = extension (stem ++ String "." ext)).
  { unfold extension.
    rewrite <- string_app_assoc.
    now rewrite !after_last_spec by exact Hext. }
  split; [exact Hsame|].
  destruct (image_name_tests (stem ++ "_thumb" ++ String "." ext))
    as [-> ->].
  destruct (image_name_tests (stem ++ String "." ext)) as [-> ->].
  rewrite Hsame, <- string_app_assoc, !has_char_app. simpl.
  rewrite !orb_true_r. split; reflexivity.
Qed.

Lemma thumbnail_keeps_the_kind_of_its_source_witness :
  extension (thumb_name "clip.GIF") = extension "clip.GIF"
  /\ is_image_name (thumb_name "clip.GIF") = is_image_name "clip.GIF"
  /\ is_gif_name (thumb_name "clip.GIF") = is_gif_name "clip.GIF".
Proof.
  apply (thumbnail_keeps_the_kind_of_its_source "clip" "GIF"); reflexivity.
Defined.

(* ------------------------------------------------------------------ *)
(** ** delete_thumb_files, in any environment *)
(* ------------------------------------------------------------------ *)

Section Cleanup.

Variable E : env.
Variable folder_path : string.

Lemma delete_loop_run (names : list string) :
  forall w : world E,
  exists r w' t,
    for_ names (fun filename =>
      if PyStr.contains "_thumb" filename then
        bind (os_remove E (os_path_join folder_path filename)) (fun _ =>
        print E ("Deleted: "
                 ++ path_str (os_path_join folder_path filename)))
      else ret tt) w = (r, w')
    /\ trace w' = trace w ++ t
    /\ ((r = Ok tt /\ t = removal_events folder_path names)
        \/ ((exists e, r = Raise e) /\ forallb ev_ok t = false)).
Proof.
  induction names as [|filename rest IH]; intros w.
  - exists (Ok tt), w, []. simpl. rewrite app_nil_r. repeat split. now left.
  - cbn [for_ removal_events flat_map].
    destruct (PyStr.contains "_thumb" filename).
    + unfold bind at 1 2, os_remove, call_, call.
      destruct (sys_remove E (os_path_join folder_path filename) (st w))
        as [[[]|e] s1]; simpl.
      * match goal with |- context [for_ rest ?b ?w1] =>
          destruct (IH w1) as (r & w' & t & Hrun & Ht & Hshape)
        end.
        eexists r, w', (_ :: _ :: t). split; [exact Hrun|]. split.
        { rewrite Ht. simpl. rewrite <- !app_assoc. reflexivity. }
        destruct Hshape as [[-> ->]|[He Hf]]; [now left | now right].
      * eexists (Raise e), _, [_]. split; [reflexivity|].
        split; [reflexivity|]. right. split; [now exists e | reflexivity].
    + unfold bind at 1, ret at 1.
      destruct (IH w) as (r & w' & t & Hrun & Ht & Hshape).
      exists r, w', t. split; [exact Hrun|]. split; [exact Ht|].
      destruct Hshape as [[-> ->]|[He Hf]]; [now left | now right].
Qed.

End Cleanup.

(** X7: a cleanup whose calls all return lists the folder and then, for each
    listed name that holds [_thumb] anywhere in it, in the order of the
    listing, removes the entry and prints [Deleted: <path>]; a name without
    [_thumb] gives no call. *)
Theorem delete_thumb_files_removes_the_marked_names
  (E : env) (folder_path : string) (w w' : world E) (r : result unit)
  (t : list (event E))
  (Hrun : delete_thumb_files E folder_path w = (r, w'))
  (Ht : trace w' = trace w ++ t)
  (Hok : forallb ev_ok t = true) :
  r = Ok tt
  /\ exists names,
       t = EvListdir folder_path (Ok names)
           :: removal_events folder_path names.
Proof.
  unfold delete_thumb_files, try_except, os_listdir in Hrun.
  unfold bind at 1, call in Hrun.
  destruct (sys_listdir E folder_path (st w)) as [[names|e] s1].
  - match type of Hrun with context [for_ names ?b ?w1] =>
      destruct (delete_loop_run E folder_path names w1)
        as (r1 & w1' & t1 & Hrun1 & Ht1 & Hshape)
    end.
    rewrite Hrun1 in Hrun. simpl in Ht1.
    destruct Hshape as [[-> ->]|[[e ->] Hfalse]].
    + inversion Hrun. subst r w1'. rewrite Ht1, <- app_assoc in Ht.
      apply app_inv_head in Ht. subst t. split; [reflexivity|].
      now exists names.
    + unfold print in Hrun. inversion Hrun. subst r w'. simpl in Ht.
      rewrite Ht1, <- !app_assoc in Ht. apply app_inv_head in Ht. subst t.
      simpl in Hok. rewrite forallb_app, Hfalse in Hok. discriminate.
  - unfold print in Hrun. inversion Hrun. subst r w'. simpl in Ht.
    rewrite <- app_assoc in Ht. apply app_inv_head in Ht. subst t.
    discriminate.
Qed.

Lemma delete_thumb_files_removes_the_marked_names_witness :
  Ok tt = Ok tt
  /\ exists names,
       [EvListdir Sim.folder (Ok ["a_thumb.png"; "b.png"; "my_thumbnail.txt"]);
        EvRemove (os_path_join Sim.folder "a_thumb.png") None;
        EvPrint "Deleted: /srv/background/a_thumb.png";
        EvRemove (os_path_join Sim.folder "my_thumbnail.txt") None;
        EvPrint "Deleted: /srv/background/my_thumbnail.txt"]
       = EvListdir (E := Sim.E) Sim.folder (Ok names)
         :: removal_events Sim.folder names.
Proof.
  apply (delete_thumb_files_removes_the_marked_names Sim.E Sim.folder
           (Sim.start (Sim.mkFs true
              [("a_thumb.png", Sim.Junk); ("b.png", Sim.Junk);
               ("my_thumbnail.txt", Sim.Text "x")] []))
           (snd (delete_thumb_files Sim.E Sim.folder
                   (Sim.start (Sim.mkFs true
                      [("a_thumb.png", Sim.Junk); ("b.png", Sim.Junk);
                       ("my_thumbnail.txt", Sim.Text "x")] [])))));
    reflexivity.
Defined.

(** X8: when the listing of the folder raises, the cleanup prints
    [Error deleting files: <error>], removes nothing and returns. *)
Theorem delete_thumb_files_logs_a_listing_failure
  (E : env) (folder_path : string) (w : world E) (e : exn) (s1 : sys E)
  (Hlist : sys_listdir E folder_path (st w) = (Raise e, s1)) :
  delete_thumb_files E folder_path w
  = (Ok tt,
     mkWorld s1
       (trace w ++
        [EvListdir folder_path (Raise e);
         EvPrint ("Error deleting files: " ++ exn_str e)])).
Proof.
  unfold delete_thumb_files, try_except, os_listdir.
  rewrite (bind_raise E _ _ _ _ _ (call_run E _ _ w _ _ Hlist)).
  unfold print. simpl. now rewrite <- app_assoc.
Qed.

Lemma delete_thumb_files_logs_a_listing_failure_witness :
  delete_thumb_files Sim.E Sim.folder (Sim.start Sim.fs_absent)
  = (Ok tt,
     mkWorld (Sim.fs_absent : sys Sim.E)
       ([] ++
        [EvListdir Sim.folder (Raise (OSError "No such file or directory"));
         EvPrint ("Error deleting files: "
                  ++ exn_str (OSError "No such file or directory"))])).
Proof.
  apply (delete_thumb_files_logs_a_listing_failure Sim.E Sim.folder
           (Sim.start Sim.fs_absent)).
  reflexivity.
Defined.

(** X9: in any environment, whatever fails, [delete_thumb_files] returns
    without raising, and its only calls are the listing of the given
    folder, removals of entries of this folder whose name holds [_thumb],
    and prints: it renames nothing, writes nothing and removes no other
    file. *)
Theorem delete_thumb_files_only_removes_marked_names
  (E : env) (folder_path : string) (w : world E) :
  exists w' t,
    delete_thumb_files E folder_path w = (Ok tt, w')
    /\ trace w' = trace w ++ t
    /\ forallb (thumb_removal_ev folder_path) t = true.
Proof.
  assert (H : returns (thumb_removal_ev folder_path)
                      (delete_thumb_files E folder_path)).
  { unfold delete_thumb_files. apply returns_try.
    - apply emits_bind.
      + apply emits_call. intros r. simpl. apply String.eqb_refl.
      + intros names. apply emits_for. intros filename.
        destruct (PyStr.contains "_thumb" filename) eqn:Hthumb;
          [|apply emits_ret].
        apply emits_bind.
        * apply emits_call_. intros r. simpl.
          now rewrite String.eqb_refl, Hthumb.
        * intros _. now apply emits_print.
    - intros e. now apply returns_print. }
  destruct (H w) as ([] & w' & t & Hrun & Ht & HP). now exists w', t.
Qed.

(* ------------------------------------------------------------------ *)
(** ** resize_gif, in any environment *)
(* ------------------------------------------------------------------ *)

(** X10: whatever the reader yields and whatever fails, [resize_gif]
    returns without raising.  It first opens the source; after that it only
    prints, except for at most one call of [imageio.mimsave], which is on
    the target path with the duration 0.1 and is followed by one last
    line. *)
Theorem resize_gif_never_raises
  (E : env) (img_path new_file_path : path) (scale_factor : PyFloat.float)
  (w : world E) :
  exists w' r prints last,
    resize_gif E img_path new_file_path scale_factor w = (Ok tt, w')
    /\ trace w' = trace w ++ EvGetReader img_path r :: prints ++ last
    /\ forallb is_print prints = true
    /\ ((exists line, last = [EvPrint line])
        \/ (exists frames r2 line,
              last = [EvMimsave new_file_path frames PyFloat.f0_1 r2;
                      EvPrint line])).
Proof.
  unfold resize_gif. rewrite try_bind_head.
  unfold imageio_get_reader, call_, call.
  destruct (sys_get_reader E img_path (st w)) as [[reader|e] s1]; simpl.
  - rewrite try_bind_head.
    match goal with |- context [frames_loop E reader scale_factor [] ?w1] =>
      destruct (frames_loop_emits E scale_factor reader [] w1)
        as (r1 & w2 & t1 & Hrun & Ht & HP)
    end.
    rewrite Hrun. simpl in Ht. destruct r1 as [frames|e].
    + unfold try_except, bind, imageio_mimsave, call_, call, print.
      destruct (sys_mimsave E new_file_path frames PyFloat.f0_1 (st w2))
        as [[[]|e] s3]; simpl.
      * eexists _, None, t1, _. split; [reflexivity|]. split.
        { simpl. rewrite Ht. repeat (rewrite <- app_assoc; simpl).
          reflexivity. }
        split; [exact HP|]. right. now eexists _, _, _.
      * eexists _, None, t1, _. split; [reflexivity|]. split.
        { simpl. rewrite Ht. repeat (rewrite <- app_assoc; simpl).
          reflexivity. }
        split; [exact HP|]. right. now eexists _, _, _.
    + unfold print. eexists _, None, t1, _. split; [reflexivity|]. split.
      { simpl. rewrite Ht. repeat (rewrite <- app_assoc; simpl).
        reflexivity. }
      split; [exact HP|]. left. now eexists.
  - unfold print. eexists _, (Some e), [], _. split; [reflexivity|]. split.
    { simpl. rewrite <- app_assoc. reflexivity. }
    split; [reflexivity|]. left. now eexists.
Qed.

(** X11: an error that the reader raises while it is iterated is not a
    frame error: it leaves the loop, the frames resized so far are thrown
    away, [imageio.mimsave] is not called and the error is logged for the
    file. *)
Theorem resize_gif_gives_up_when_the_reader_raises
  (E : env) (img_path new_file_path : path) (scale_factor : PyFloat.float)
  (w : world E) (frames : list (ndarray E)) (e : exn)
  (rest : list (result (ndarray E))) (s1 : sys E)
  (Hread : sys_get_reader E img_path (st w)
           = (Ok (map Ok frames ++ Raise e :: rest), s1)) :
  resize_gif E img_path new_file_path scale_factor w
  = (Ok tt,
     mkWorld s1
       (trace w ++ EvGetReader img_path None
        :: dropped_frames_log E scale_factor frames
        ++ [EvPrint ("Error resizing GIF " ++ path_str img_path ++ ": "
                     ++ exn_str e)])).
Proof. exact (resize_gif_reader_error E scale_factor _ _ _ _ _ _ _ Hread). Qed.

Lemma resize_gif_gives_up_when_the_reader_raises_witness :
  let fs := Sim.mkFs true
              [("clip.gif",
                Sim.Anim [Ok Sim.frame100; Raise (ValueError "truncated");
                          Ok Sim.frame100])] [] in
  resize_gif Sim.E Sim.clip Sim.clip_thumb PyFloat.f0_5 (Sim.start fs)
  = (Ok tt,
     mkWorld (fs : sys Sim.E)
       ([] ++ EvGetReader Sim.clip None
        :: dropped_frames_log Sim.E PyFloat.f0_5 [Sim.frame100]
        ++ [EvPrint ("Error resizing GIF " ++ path_str Sim.clip ++ ": "
                     ++ exn_str (ValueError "truncated"))])).
Proof.
  intros fs.
  apply (resize_gif_gives_up_when_the_reader_raises Sim.E Sim.clip
           Sim.clip_thumb PyFloat.f0_5 (Sim.start fs) [Sim.frame100]
           (ValueError "truncated") [Ok Sim.frame100] fs).
  reflexivity.
Defined.

Section FrameCount.

Variable E : env.
Variable scale_factor : PyFloat.float.

Lemma frames_are_written_or_logged (frames : list (ndarray E)) :
  length (surviving_frames E scale_factor frames)
  + length (dropped_frames_log E scale_factor frames)
  = length frames.
Proof.
  induction frames as [|frame rest IH]; simpl; [reflexivity|].
  destruct (process_frame E frame scale_factor); simpl; lia.
Qed.

Lemma surviving_none (frames : list (ndarray E)) :
  forallb (fun frame => negb (frame_ok E scale_factor frame)) frames = true ->
  surviving_frames E scale_factor frames = [].
Proof.
  induction frames as [|frame rest IH]; simpl; [reflexivity|].
  unfold frame_ok at 1.
  destruct (process_frame E frame scale_factor); simpl; [discriminate|].
  exact IH.
Qed.

End FrameCount.

(** X12: when the reader yields no frame, or every frame fails in the inner
    [try], [imageio.mimsave] is still called, with an empty list of frames;
    what it answers decides the last line. *)
Theorem resize_gif_saves_an_empty_list
  (E : env) (img_path new_file_path : path) (scale_factor : PyFloat.float)
  (w : world E) (frames : list (ndarray E)) (s1 s2 : sys E)
  (r : result unit)
  (Hnone : forallb (fun frame => negb (frame_ok E scale_factor frame))
                   frames = true)
  (Hread : sys_get_reader E img_path (st w) = (Ok (map Ok frames), s1))
  (Hsave : sys_mimsave E new_file_path [] PyFloat.f0_1 s1 = (r, s2)) :
  resize_gif E img_path new_file_path scale_factor w
  = (Ok tt,
     mkWorld s2
       (trace w ++ EvGetReader img_path None
        :: dropped_frames_log E scale_factor frames
        ++ [EvMimsave new_file_path [] PyFloat.f0_1 (outcome r);
            EvPrint (match r with
                     | Ok _ => "Resized and saved GIF: "
                               ++ path_str new_file_path
                     | Raise e => "Error resizing GIF " ++ path_str img_path
                                  ++ ": " ++ exn_str e
                     end)]))
  /\ length (dropped_frames_log E scale_factor frames) = length frames.
Proof.
  pose proof (surviving_none E scale_factor frames Hnone) as Hs.
  pose proof (frames_are_written_or_logged E scale_factor frames) as Hc.
  rewrite Hs in Hc. split; [|exact Hc].
  rewrite <- Hs in Hsave.
  rewrite (resize_gif_run E scale_factor _ _ _ _ _ _ _ Hread Hsave).
  now rewrite Hs.
Qed.

Lemma resize_gif_saves_an_empty_list_witness :
  let fs := Sim.mkFs true
              [("clip.gif", Sim.Anim [Ok Sim.BadArr; Ok Sim.BadArr])] [] in
  resize_gif Sim.E Sim.clip Sim.clip_thumb PyFloat.f0_5 (Sim.start fs)
  = (Ok tt,
     mkWorld (fs : sys Sim.E)
       ([] ++ EvGetReader Sim.clip None
        :: dropped_frames_log Sim.E PyFloat.f0_5 [Sim.BadArr; Sim.BadArr]
        ++ [EvMimsave Sim.clip_thumb [] PyFloat.f0_1
              (outcome (Raise (A := unit)
                          (RuntimeError "Zero images were written.")));
            EvPrint ("Error resizing GIF " ++ path_str Sim.clip ++ ": "
                     ++ "Zero images were written.")]))
  /\ length (dropped_frames_log Sim.E PyFloat.f0_5 [Sim.BadArr; Sim.BadArr])
     = length [Sim.BadArr; Sim.BadArr].
Proof.
  intros fs.
  apply (resize_gif_saves_an_empty_list Sim.E Sim.clip Sim.clip_thumb
           PyFloat.f0_5 (Sim.start fs) [Sim.BadArr; Sim.BadArr] fs fs
           (Raise (RuntimeError "Zero images were written.")));
    reflexivity.
Defined.

(** X13: when the reader yields all its frames, every frame is either
    passed to [imageio.mimsave] or logged, never both and never lost: the
    frames written and the frame errors logged add up to the frames read.
    If [imageio.mimsave] raises, the error is logged for the source file
    and the line of success is not printed. *)
Theorem resize_gif_accounts_for_every_frame
  (E : env) (img_path new_file_path : path) (scale_factor : PyFloat.float)
  (w : world E) (frames : list (ndarray E)) (s1 s2 : sys E)
  (r : result unit)
  (Hread : sys_get_reader E img_path (st w) = (Ok (map Ok frames), s1))
  (Hsave : sys_mimsave E new_file_path
             (surviving_frames E scale_factor frames) PyFloat.f0_1 s1
           = (r, s2)) :
  exists written logged,
    resize_gif E img_path new_file_path scale_factor w
    = (Ok tt,
       mkWorld s2
         (trace w ++ EvGetReader img_path None
          :: logged
          ++ [EvMimsave new_file_path written PyFloat.f0_1 (outcome r);
              EvPrint (match r with
                       | Ok _ => "Resized and saved GIF: "
                                 ++ path_str new_file_path
                       | Raise e => "Error resizing GIF "
                                    ++ path_str img_path ++ ": " ++ exn_str e
                       end)]))
    /\ forallb is_print logged = true
    /\ length written + length logged = length frames.
Proof.
  exists (surviving_frames E scale_factor frames),
         (dropped_frames_log E scale_factor frames).
  split; [exact (resize_gif_run E scale_factor _ _ _ _ _ _ _ Hread Hsave)|].
  split.
  - clear. induction frames as [|frame rest IH]; simpl; [reflexivity|].
    destruct (process_frame E frame scale_factor); simpl; exact IH.
  - apply frames_are_written_or_logged.
Qed.

Lemma resize_gif_accounts_for_every_frame_witness :
  exists written logged,
    resize_gif Sim.E Sim.clip Sim.clip_thumb PyFloat.f0_5
      (Sim.start Sim.fs_photos)
    = (Ok tt,
       mkWorld
         (Sim.with_entries Sim.fs_photos
            (Sim.entries Sim.fs_photos
             ++ [("clip_thumb.gif",
                  Sim.Anim [Ok (Sim.GoodArr Sim.thumb50);
                            Ok (Sim.GoodArr Sim.thumb50)])]) : sys Sim.E)
         ([] ++ EvGetReader Sim.clip None
          :: logged
          ++ [EvMimsave Sim.clip_thumb written PyFloat.f0_1
                (outcome (Ok tt));
              EvPrint ("Resized and saved GIF: "
                       ++ path_str Sim.clip_thumb)]))
    /\ forallb is_print logged = true
    /\ length written + length logged
       = length [Sim.frame100; Sim.BadArr; Sim.frame100].
Proof.
  apply (resize_gif_accounts_for_every_frame Sim.E Sim.clip Sim.clip_thumb
           PyFloat.f0_5 (Sim.start Sim.fs_photos)
           [Sim.frame100; Sim.BadArr; Sim.frame100] Sim.fs_photos);
    reflexivity.
Defined.

(* ------------------------------------------------------------------ *)
(** ** The cataloguing loop, in any environment *)
(* ------------------------------------------------------------------ *)

Section CatalogInvariant.

Lemma dict_get_add_gen (fmt c : string) (d : catalog) :
  dict_get fmt (catalog_add d c)
  = dict_get fmt d
    ++ (if String.eqb (extension c) fmt && dict_mem fmt d then [c] else []).
Proof.
  unfold catalog_add. destruct (dict_mem (extension c) d) eqn:Hmem.
  - apply dict_get_append.
  - destruct (String.eqb (extension c) fmt) eqn:Hf; simpl;
      [|now rewrite app_nil_r].
    apply String.eqb_eq in Hf. subst fmt. now rewrite Hmem, app_nil_r.
Qed.

Lemma subsequence_nil {A} (ys : list A) : subsequence [] ys.
Proof. induction ys as [|y ys IH]; simpl; [reflexivity | now left]. Qed.

End CatalogInvariant.

(** X14: in any environment, whatever renaming fails, the loop of lines
    86-100 returns without raising; it only renames and prints; the table
    keeps its keys in their order; and the list of each format only grows
    at its end, by cleaned names of that extension taken in the order of
    the listing (those whose renaming raised are left out). *)
Theorem cataloguing_only_appends
  (E : env) (folder_path : string) (names : list string) :
  forall (image_formats : catalog) (w : world E),
  exists cat w' t,
    for_fold names image_formats (catalog_entry E folder_path) w
    = (Ok cat, w')
    /\ trace w' = trace w ++ t
    /\ forallb catalog_ev t = true
    /\ map fst cat = map fst image_formats
    /\ forall fmt, exists added,
         dict_get fmt cat = dict_get fmt image_formats ++ added
         /\ subsequence added
              (filter (fun c => String.eqb (extension c) fmt)
                      (map clean_filename names)).
Proof.
  induction names as [|filename rest IH]; intros image_formats w.
  - exists image_formats, w, []. simpl. rewrite app_nil_r.
    repeat split. intros fmt. exists []. now rewrite app_nil_r.
  - cbn [for_fold map filter]. unfold bind. rewrite catalog_entry_run.
    set (c := clean_filename filename).
    assert (Hstep : forall w1 t1, trace w1 = trace w ++ t1 ->
              forallb catalog_ev t1 = true ->
              exists cat w' t,
                for_fold rest (catalog_add image_formats c)
                  (catalog_entry E folder_path) w1 = (Ok cat, w')
                /\ trace w' = trace w ++ t
                /\ forallb catalog_ev t = true
                /\ map fst cat = map fst image_formats
                /\ forall fmt, exists added,
                     dict_get fmt cat = dict_get fmt image_formats ++ added
                     /\ subsequence added
                          (if String.eqb (extension c) fmt
                           then c :: filter
                                  (fun c => String.eqb (extension c) fmt)
                                  (map clean_filename rest)
                           else filter
                                  (fun c => String.eqb (extension c) fmt)
                                  (map clean_filename rest))).
    { intros w1 t1 Ht1 HP1.
      destruct (IH (catalog_add image_formats c) w1)
        as (cat & w' & t & Hrun & Ht & HP & Hkeys & Hlists).
      exists cat, w', (t1 ++ t). split; [exact Hrun|]. split.
      { now rewrite Ht, Ht1, app_assoc. }
      split; [now rewrite forallb_app, HP1, HP|].
      split; [now rewrite Hkeys, catalog_add_keys|].
      intros fmt. destruct (Hlists fmt) as (added & Hget & Hsub).
      rewrite dict_get_add_gen in Hget.
      destruct (String.eqb (extension c) fmt); simpl in Hget.
      - destruct (dict_mem fmt image_formats); simpl in Hget.
        + exists (c :: added). split.
          * now rewrite Hget, <- app_assoc.
          * simpl. right. now split.
        + exists added. rewrite app_nil_r in Hget. split; [exact Hget|].
          simpl. now left.
      - exists added. rewrite app_nil_r in Hget. now split. }
    destruct (String.eqb filename c).
    + apply (Hstep w []); [now rewrite app_nil_r | reflexivity].
    + destruct (sys_rename E _ _ (st w)) as [[[]|e] s1].
      * eapply Hstep; [reflexivity | reflexivity].
      * match goal with |- context [for_fold rest ?d _ ?w1] =>
          destruct (IH d w1)
            as (cat & w' & t & Hrun & Ht & HP & Hkeys & Hlists)
        end.
        eexists cat, w', (_ :: _ :: t). split; [exact Hrun|]. split.
        { rewrite Ht. simpl. rewrite <- app_assoc. reflexivity. }
        split; [exact HP|]. split; [exact Hkeys|].
        intros fmt. destruct (Hlists fmt) as (added & Hget & Hsub).
        exists added. split; [exact Hget|].
        destruct (String.eqb (extension c) fmt); [simpl; now left|].
        exact Hsub.
Qed.

(** X15: when no listed name has, once cleaned, an extension that is a key
    of the table, the table comes out of the loop as it went in, with its
    four empty lists, whatever the renamings do. *)
Theorem cataloguing_without_images_leaves_the_table_empty
  (E : env) (folder_path : string) (names : list string) (w : world E)
  (Hnone : forallb
             (fun filename =>
                negb (dict_mem (extension (clean_filename filename))
                               image_formats0))
             names = true) :
  exists w',
    for_fold names image_formats0 (catalog_entry E folder_path) w
    = (Ok image_formats0, w')
    /\ manifest_lines image_formats0
       = [("Format: png" ++ nl)%string; nl; ("Format: jpg" ++ nl)%string; nl;
          ("Format: jpeg" ++ nl)%string; nl; ("Format: gif" ++ nl)%string;
          nl].
Proof.
  split with (x := snd (for_fold names image_formats0
                          (catalog_entry E folder_path) w)).
  split; [|reflexivity].
  revert w. induction names as [|filename rest IH]; intros w;
    [reflexivity|].
  cbn [forallb] in Hnone. apply andb_prop in Hnone.
  destruct Hnone as [Hf Hrest]. apply negb_true_iff in Hf.
  assert (Hadd : catalog_add image_formats0 (clean_filename filename)
                 = image_formats0).
  { unfold catalog_add. now rewrite Hf. }
  cbn [for_fold]. unfold bind. rewrite catalog_entry_run, Hadd.
  destruct (String.eqb filename (clean_filename filename)).
  - rewrite (IH Hrest w) at 1. reflexivity.
  - destruct (sys_rename E _ _ (st w)) as [[[]|e] s1];
      match goal with |- context [for_fold rest _ _ ?w1] =>
        rewrite (IH Hrest w1) at 1
      end; reflexivity.
Qed.

Lemma cataloguing_without_images_leaves_the_table_empty_witness :
  exists w',
    for_fold ["notes.txt"; "read me"; "a.p n g.bak"] image_formats0
      (catalog_entry Sim.E Sim.folder) (Sim.start Sim.fs_absent)
    = (Ok image_formats0, w')
    /\ manifest_lines image_formats0
       = [("Format: png" ++ nl)%string; nl; ("Format: jpg" ++ nl)%string; nl;
          ("Format: jpeg" ++ nl)%string; nl; ("Format: gif" ++ nl)%string;
          nl].
Proof.
  apply (cataloguing_without_images_leaves_the_table_empty Sim.E Sim.folder
           ["notes.txt"; "read me"; "a.p n g.bak"]
           (Sim.start Sim.fs_absent)).
  reflexivity.
Defined.

(* ------------------------------------------------------------------ *)
(** ** The manifest stage, in any environment *)
(* ------------------------------------------------------------------ *)

(** X16: in any environment, the manifest stage returns without raising.
    If the opening of [image_list.txt] raises, nothing is written and the
    error is logged.  Once the file is open, the stage only writes into it
    and closes it exactly once, after its last write, also when a write
    raises; at most one line of error follows. *)
Theorem write_image_list_closes_what_it_opens
  (E : env) (folder_path : string) (image_formats : catalog) (w : world E) :
  let p := manifest_path folder_path in
  exists w' t,
    write_image_list E folder_path image_formats w = (Ok tt, w')
    /\ trace w' = trace w ++ t
    /\ ((exists e line, t = [EvOpenW p (Some e); EvPrint line])
        \/ (exists writes r tail,
              t = EvOpenW p None :: writes ++ EvClose p r :: tail
              /\ forallb (is_write_to p) writes = true
              /\ forallb is_print tail = true
              /\ length tail <= 1)).
Proof.
  intros p. unfold write_image_list, with_open_w, try_except.
  fold (manifest_path folder_path). fold p.
  assert (Hp : path_eqb p p = true).
  { unfold path_eqb. now rewrite !String.eqb_refl. }
  unfold bind at 1, open_w, call_, call.
  destruct (sys_open_w E p (st w)) as [[[]|e] s1]; simpl.
  - match goal with |- context [for_ image_formats ?body ?w1] =>
      assert (Hbody : emits (is_write_to p) (for_ image_formats body));
      [|destruct (Hbody w1) as (r & w2 & t & Hrun & Ht & HP)]
    end.
    { apply emits_for. intros [format files].
      apply emits_bind; [apply emits_call_; intros r; exact Hp|].
      intros _. apply emits_bind.
      - apply emits_for. intros file. apply emits_call_. intros r. exact Hp.
      - intros _. apply emits_call_. intros r. exact Hp. }
    rewrite Hrun. simpl in Ht.
    unfold bind, f_close, call_, call, lift, ret, print.
    destruct r as [[]|e];
      destruct (sys_close E p (st w2)) as [[[]|e'] s3]; simpl;
      eexists _, (EvOpenW p None :: t ++ EvClose p _ :: _);
      (split; [reflexivity|]);
      (split; [simpl; rewrite Ht; repeat (rewrite <- app_assoc; simpl);
               reflexivity|]);
      right; eexists t, _, _; (split; [reflexivity|]);
      (split; [exact HP|]); split; simpl; try reflexivity; lia.
  - unfold print. eexists _, [EvOpenW p (Some e); _].
    split; [reflexivity|]. split.
    { simpl. now rewrite <- app_assoc. }
    left. now eexists _, _.
Qed.

(* ------------------------------------------------------------------ *)
(** ** A still image, step by step *)
(* ------------------------------------------------------------------ *)

(** X17: for an entry with an image name that is not a gif name, the pass
    opens the entry; [Image.save] is called only when the opening, the
    computation of the size and [resize] have all returned, and only on the
    thumbnail path; any of the four steps that raises gives one line
    [Error resizing image <entry>: <error>], and the pass goes on. *)
Theorem still_image_is_saved_only_after_every_step
  (E : env) (folder_path : string) (scale_factor : PyFloat.float)
  (filename : string) (w : world E)
  (Himg : is_image_name filename = true)
  (Hgif : is_gif_name filename = false) :
  let src := os_path_join folder_path filename in
  let dst := os_path_join folder_path (thumb_name filename) in
  let err := fun e : exn =>
    EvPrint (E := E)
      ("Error resizing image " ++ filename ++ ": " ++ exn_str e) in
  thumbnail_entry E folder_path scale_factor filename w
  = match sys_Image_open E src (st w) with
    | (Raise e, s1) =>
        (Ok tt, mkWorld s1 (trace w ++ [EvImageOpen src (Some e); err e]))
    | (Ok img, s1) =>
        match new_dimensions (width E img) (height E img) scale_factor with
        | Raise e =>
            (Ok tt, mkWorld s1 (trace w ++ [EvImageOpen src None; err e]))
        | Ok size =>
            match Image_resize E img size None with
            | Raise e =>
                (Ok tt,
                 mkWorld s1 (trace w ++ [EvImageOpen src None; err e]))
            | Ok resized =>
                match sys_Image_save E resized dst s1 with
                | (Ok _, s2) =>
                    (Ok tt,
                     mkWorld s2
                       (trace w ++
                        [EvImageOpen src None;
                         EvImageSave resized dst None;
                         EvPrint ("Resized and saved: " ++ path_str dst)]))
                | (Raise e, s2) =>
                    (Ok tt,
                     mkWorld s2
                       (trace w ++
                        [EvImageOpen src None;
                         EvImageSave resized dst (Some e); err e]))
                end
            end
        end
    end.
Proof.
  intros src dst err. unfold thumbnail_entry.
  unfold is_image_name in Himg. unfold is_gif_name in Hgif.
  rewrite Himg, Hgif.
  destruct (PyStr.splitext filename) as [name ext] eqn:Hsp.
  assert (Hname : (name ++ "_thumb" ++ ext)%string = thumb_name filename).
  { unfold thumb_name. now rewrite Hsp. }
  rewrite Hname. fold src dst.
  unfold resize_still, try_except, bind, Image_open, Image_save, call_, call,
    lift, print.
  destruct (sys_Image_open E src (st w)) as [[img|e] s1]; simpl.
  - destruct (new_dimensions (width E img) (height E img) scale_factor)
      as [size|e]; simpl.
    + destruct (Image_resize E img size None) as [resized|e]; simpl.
      * destruct (sys_Image_save E resized dst s1) as [[[]|e] s2]; simpl;
          repeat (rewrite <- app_assoc; simpl); reflexivity.
      * repeat (rewrite <- app_assoc; simpl). reflexivity.
    + repeat (rewrite <- app_assoc; simpl). reflexivity.
  - repeat (rewrite <- app_assoc; simpl). reflexivity.
Qed.

Lemma still_image_is_saved_only_after_every_step_witness :
  thumbnail_entry Sim.E Sim.folder PyFloat.f0_5 "photo.png"
    (Sim.start Sim.fs_photos)
  = (Ok tt,
     mkWorld
       (Sim.with_entries Sim.fs_photos
          (Sim.entries Sim.fs_photos
           ++ [("photo_thumb.png", Sim.Still (Sim.mkImg 320 240 "RGBA"))])
        : sys Sim.E)
       [EvImageOpen (os_path_join Sim.folder "photo.png") None;
        EvImageSave (Sim.mkImg 320 240 "RGBA" : image Sim.E)
          (os_path_join Sim.folder "photo_thumb.png") None;
        EvPrint "Resized and saved: /srv/background/photo_thumb.png"]).
Proof.
  apply (still_image_is_saved_only_after_every_step Sim.E Sim.folder
           PyFloat.f0_5 "photo.png" (Sim.start Sim.fs_photos));
    reflexivity.
Defined.

(* ------------------------------------------------------------------ *)
(** ** The script *)
(* ------------------------------------------------------------------ *)

(** X18: the script of lines 146-148 runs [resize_images_in_folder] on the
    folder of line 146 with the default scale factor, and prints the final
    line, which names this folder, exactly when the run returns.  When a
    listing of line 86 or of line 114 raises, the exception leaves the
    script and the final line is not printed. *)
Theorem script_reports_only_a_run_that_returns (E : env) (w : world E) :
  exists r w1,
    resize_images_in_folder E script_folder_path PyFloat.f0_25 w = (r, w1)
    /\ match r with
       | Ok _ =>
           script E w
           = (Ok tt,
              mkWorld (st w1)
                (trace w1 ++
                 [EvPrint ("Done! Check the folder: "
                           ++ script_folder_path)]))
       | Raise e =>
           script E w = (Raise e, w1)
           /\ exists t,
                trace w1
                = trace w ++ t ++ [EvListdir script_folder_path (Raise e)]
       end.
Proof.
  destruct (resize_images_in_folder E script_folder_path PyFloat.f0_25 w)
    as [[[]|e] w1] eqn:Hrun; eexists _, w1; (split; [reflexivity|]).
  - unfold script, resize_images_in_folder_default, bind. now rewrite Hrun.
  - split.
    + unfold script, resize_images_in_folder_default, bind. now rewrite Hrun.
    + exact (resize_images_in_folder_raises_only_from_listing E _ _ _ _ _
               Hrun).
Qed.

(* ------------------------------------------------------------------ *)
(** ** A run stays in its folder *)
(* ------------------------------------------------------------------ *)

Section InFolder.

Variable E : env.
Variable folder_path : string.
Variable scale_factor : PyFloat.float.









End InFolder.


(* ------------------------------------------------------------------ *)
(** ** A scale factor that is not a number *)
(* ------------------------------------------------------------------ *)

Section NotANumber.

Lemma scaled_nan (n : Z) : exists e, scaled n nan = Raise e.
Proof.
  unfold scaled, PyFloat.of_int.
  destruct (binary_normalize PyFloat.prec PyFloat.emax n 0 false);
    simpl; eexists; reflexivity.
Qed.

Lemma new_dimensions_nan (width height : Z) :
  exists e, new_dimensions width height nan = Raise e.
Proof.
  unfold new_dimensions. destruct (scaled_nan width) as [e ->].
  now exists e.
Qed.

End NotANumber.

(** X20: the scale factor is not validated.  With a factor that is not a
    number, [int] raises on the product for every dimension, so for a still
    image the pass opens the entry, never calls [Image.save], and prints one
    line [Error resizing image <entry>: <error>]; and in [resize_gif] no
    frame survives the inner [try]. *)
Theorem a_nan_scale_factor_saves_no_image
  (E : env) (folder_path filename : string) (w : world E)
  (Himg : is_image_name filename = true)
  (Hgif : is_gif_name filename = false) :
  let src := os_path_join folder_path filename in
  (exists w' r e,
     thumbnail_entry E folder_path nan filename w = (Ok tt, w')
     /\ trace w'
        = trace w ++
          [EvImageOpen src r;
           EvPrint ("Error resizing image " ++ filename ++ ": "
                    ++ exn_str e)])
  /\ (forall frames : list (ndarray E), surviving_frames E nan frames = []).
Proof.
  intros src. split.
  - rewrite thumbnail_entry_dispatch, Himg, Hgif. fold src.
    unfold resize_still, try_except, bind, Image_open, call_, call, lift,
      print.
    destruct (sys_Image_open E src (st w)) as [[img|e] s1]; simpl.
    + destruct (new_dimensions_nan (width E img) (height E img)) as [e ->].
      simpl. eexists _, None, e. split; [reflexivity|].
      simpl. now rewrite <- app_assoc.
    + eexists _, (Some e), e. split; [reflexivity|].
      simpl. now rewrite <- app_assoc.
  - induction frames as [|frame rest IH]; simpl; [reflexivity|].
    unfold process_frame.
    destruct (Image_fromarray E frame) as [img|e]; simpl; [|exact IH].
    destruct (Image_convert E img "RGB") as [img'|e]; simpl; [|exact IH].
    destruct (new_dimensions_nan (width E img') (height E img')) as [e ->].
    simpl. exact IH.
Qed.

Lemma a_nan_scale_factor_saves_no_image_witness :
  let src := os_path_join Sim.folder "photo.png" in
  (exists w' r e,
     thumbnail_entry Sim.E Sim.folder nan "photo.png"
       (Sim.start Sim.fs_photos) = (Ok tt, w')
     /\ trace w'
        = trace (Sim.start Sim.fs_photos) ++
          [EvImageOpen src r;
           EvPrint ("Error resizing image " ++ "photo.png" ++ ": "
                    ++ exn_str e)])
  /\ (forall frames : list (ndarray Sim.E),
        surviving_frames Sim.E nan frames = []).
Proof.
  apply (a_nan_scale_factor_saves_no_image Sim.E Sim.folder "photo.png"
           (Sim.start Sim.fs_photos));
    reflexivity.
Defined.
